(** * learning/train_with_job_array.py: the experiment configurator

    A shallow embedding of [main] of [learning/train_with_job_array.py]:
    the script loads one YAML experiment descriptor, edits it in a
    straight line of dictionary updates, hands it to a job-array callback,
    registers it with the training framework and calls the framework's
    experiment runner.

    Python dictionaries are finite maps keyed by strings ([gmap string]),
    the values are the ones a YAML file yields plus opaque objects, Python
    exceptions are the error side of [result], and the calls that leave the
    script (file load, import, callback, registries, runtime, runner) are
    recorded in a trace of events.

    [main] is one function; its steps are named here after the comments
    that head them in the source, with the lines they cover. [parse_args]
    is represented by its result, the record [args].

    The insertion order of a dictionary is not part of the model: the one
    place where [main] reads an order, [exp_names[0]], is reached only
    with a single key. The descriptor is updated in place by the script;
    the model passes the updated descriptor on, which is the same as long
    as the collaborators are functions of what they are handed. *)

From Stdlib Require Import ZArith Ascii String.
From stdpp Require Import gmap strings list fin_maps.

Local Open Scope string_scope.
Set Warnings "-register-all".

(** ** Values *)

(** What a descriptor holds: the scalars, lists and mappings of a YAML
    document, and the Python objects the script stores but never looks
    into (functions, classes, policy specifications), named by a tag. A
    float is kept as mantissa and binary exponent; the script never
    computes with one. *)
Inductive value : Type :=
| VNone
| VBool (b : bool)
| VInt (z : Z)
| VFloat (m e : Z)
| VStr (s : string)
| VList (l : list value)
| VDict (d : gmap string value)
| VOpaque (tag : string).

(** ** Exceptions and fallible results *)

(** The Python exceptions the script can meet; [Raised] is whatever a
    collaborator raises. [Unmodelled] is not a Python exception: it marks
    an input that leaves the data model (a mapping key that is not a
    string), where Python would go on. *)

Inductive exn : Type :=
| AssertionError
| KeyError (k : string)
| IndexError
| TypeError
| AttributeError (name : string)
| ModuleNotFoundError (name : string)
| Raised (what : string)
| Unmodelled (what : string).

Inductive result (A : Type) : Type :=
| Ok (a : A)
| Err (e : exn).
Arguments Ok {A} a.
Arguments Err {A} e.

Definition rbind {A B} (r : result A) (k : A → result B) : result B :=
  match r with
  | Ok a => k a
  | Err e => Err e
  end.

Notation "'try' x ':=' r 'in' k" := (rbind r (λ x, k))
  (at level 10, x name, r at level 100, k at level 200).
Notation "'try' ' p ':=' r 'in' k" := (rbind r (λ x, match x with p => k end))
  (at level 10, p pattern, r at level 100, k at level 200).

(** ** Subscripting *)

(** [d[k]] with a string key: a mapping raises [KeyError] on a missing
    key; a list, a string, a number or [None] raise [TypeError]. *)
Definition getitem (d : value) (k : string) : result value :=
  match d with
  | VDict m => match m !! k with
               | Some v => Ok v
               | None => Err (KeyError k)
               end
  | _ => Err TypeError
  end.

(** [d[k] = v] with a string key. *)
Definition setitem (d : value) (k : string) (v : value) : result value :=
  match d with
  | VDict m => Ok (VDict (<[k := v]> m))
  | _ => Err TypeError
  end.

(** [del d[k]]. *)
Definition delitem (d : value) (k : string) : result value :=
  match d with
  | VDict m => match m !! k with
               | Some _ => Ok (VDict (delete k m))
               | None => Err (KeyError k)
               end
  | _ => Err TypeError
  end.

(** [k in d.keys()]: only a mapping has [keys]. *)
Definition has_key (d : value) (k : string) : result bool :=
  match d with
  | VDict m => Ok (bool_decide (is_Some (m !! k)))
  | _ => Err (AttributeError "keys")
  end.

(** [d[k1][k2] = v]: the inner mapping is updated in place, which the
    functional model renders by writing it back under [k1]. A mapping
    that two keys share (a YAML alias) is outside this rendering: the
    write reaches it under [k1] only. *)
Definition setitem2 (d : value) (k1 k2 : string) (v : value) : result value :=
  try inner := getitem d k1 in
  try inner' := setitem inner k2 v in
  setitem d k1 inner'.

Definition getitem2 (d : value) (k1 k2 : string) : result value :=
  try inner := getitem d k1 in
  getitem inner k2.

Definition getitem3 (d : value) (k1 k2 k3 : string) : result value :=
  try inner := getitem2 d k1 k2 in
  getitem inner k3.

(** [d[k1][k2][k3] = v]. *)
Definition setitem3 (d : value) (k1 k2 k3 : string) (v : value) : result value :=
  try inner := getitem d k1 in
  try inner' := setitem2 inner k2 k3 v in
  setitem d k1 inner'.

(** ** Command line *)

(** The flags [parse_args] adds to the framework's parser. A flag that is
    not given keeps its default: [None] for the string and integer
    options, [False] for the [store_true] switches. *)
Record args : Type := {
  config_file : option string;
  temp_dir : string;
  resume : bool;
  flag_v : bool;
  flag_vv : bool;
  local_mode : bool;
  job_array_module : option string;
  job_array_task_id : option Z }.

(** ** The collaborators *)

(** Keyword arguments of [ray.init]. *)
Record init_args : Type := {
  init_local_mode : bool;
  init_temp_dir : string;
  include_dashboard : bool;
  num_cpus : value;
  num_gpus : value }.

(** Arguments of [tune.run], in the order the call site evaluates them. *)
Record run_args : Type := {
  run_trainer : value;
  run_name : value;
  run_stop : value;
  run_config : value;
  run_resources_per_trial : value;
  run_num_samples : value;
  run_local_dir : value;
  run_keep_checkpoints_num : value;
  run_checkpoint_freq : value;
  run_checkpoint_at_end : value;
  run_verbose : Z;
  run_trial_name_creator : value;
  run_restore : value }.

(** An attribute of an imported module: a function of a descriptor and a
    task id that returns a descriptor and a name, or any other object. *)
Inductive attr : Type :=
| AFun (f : value → option Z → result (value * value))
| AVal (o : value).

Record pymodule : Type := { module_dict : gmap string attr }.

(** The object [PolicyManager(env_creator, config)] builds, seen through
    the three members [main] uses. *)
Record policy_manager : Type := {
  agent_ids : result value;
  get_policy : value → result value;
  get_policy_mapping_fn : value → result value }.

(** Everything [main] calls and this file does not define: the helpers of
    [misc], [os.path], [importlib], the registries, the runtime and the
    runner. Each is a function of its arguments; one that updates the
    descriptor in place returns the updated descriptor. *)
Record world : Type := {
  load_yaml : option string → result value;
  get_dict_value_by_str : value → string → result value;
  set_dict_value_by_str : value → string → value → result value;
  expanduser : string → string;
  abspath : string → string;
  import_module : string → result pymodule;
  register_custom_env : value → result value;
  register_custom_model : value → result unit;
  ray_init : init_args → result unit;
  PolicyManager : value → value → result policy_manager;
  set_callbacks : value → value → result value;
  grid_search : value → value;
  get_trainer_class : value → result value;
  tune_run : run_args → result value;
  ray_shutdown : result unit }.

(** ** Effects *)

(** The calls that act outside the descriptor, in program order. *)
Inductive event : Type :=
| EvLoadYaml (file : option string)
| EvImport (name : string)
| EvUpdateExp (exp : value) (task_id : option Z)
| EvPrint (s : string)
| EvPPrint (o : value)
| EvRegisterEnv (env : value)
| EvRegisterModel (model : value)
| EvRayInit (a : init_args)
| EvPolicyManager (env_creator config : value)
| EvSetCallbacks (exp ids : value)
| EvTuneRun (a : run_args)
| EvRayShutdown.

(** A computation is the trace of the calls it made and either its value
    or the exception that ended it. *)
Definition M (A : Type) : Type := list event * result A.

Definition lift {A} (r : result A) : M A := ([], r).

(** A call is recorded whether it returns or raises. *)
Definition call {A} (ev : event) (r : result A) : M A := ([ev], r).

Definition bind {A B} (m : M A) (k : A → M B) : M B :=
  match m with
  | (t, Ok a) => let '(t', r) := k a in ((t ++ t')%list, r)
  | (t, Err e) => (t, Err e)
  end.

Notation "'do' x '<-' m ';' k" := (bind m (λ x, k))
  (at level 10, x name, m at level 100, k at level 200).
Notation "'do' ' p '<-' m ';' k" := (bind m (λ x, match x with p => k end))
  (at level 10, p pattern, m at level 100, k at level 200).

Definition trace {A} (m : M A) : list event := m.1.
Definition outcome {A} (m : M A) : result A := m.2.

(** ** Get experiment configuration (lines 61 to 79) *)

(** Lines 62 to 64: the names of the loaded experiments, the assertion
    that there is one, and the descriptor under it. *)
Definition select_experiment (experiments : value) : result value :=
  match experiments with
  | VDict m =>
      let exp_names := (map_to_list m).*1 in
      if decide (length exp_names = 1) then
        match exp_names with
        | name :: _ => getitem experiments name
        | [] => Err IndexError
        end
      else Err AssertionError
  | _ => Err (AttributeError "keys")
  end.

(** The function object line 65 stores in the descriptor; [main] passes it
    on and never calls it, so its body (lines 158 to 161) is not
    modelled. *)
Definition trial_name_creator : value := VOpaque "trial_name_creator".

Definition path_keys : list string := ["local_dir"].

(** [os.path.expanduser] takes a string. *)
Definition as_path (p : value) : result string :=
  match p with
  | VStr s => Ok s
  | _ => Err TypeError
  end.

(** Modelled from the spec: [misc.get_dict_value_by_str] is not part of the
    source at hand; by step 2 of the spec it reads a field of the
    descriptor, here the field named by the key. *)
Definition plain_get (exp : value) (k : string) : result value := getitem exp k.

(** Modelled from the spec: [misc.set_dict_value_by_str] is not part of the
    source at hand; by step 2 of the spec it rewrites a field of the
    descriptor, here the field named by the key. *)
Definition plain_set (exp : value) (k : string) (x : value) : result value :=
  setitem exp k x.

(** Lines 67 to 70, over the keys still to visit. *)
Fixpoint normalize_paths (w : world) (keys : list string) (exp : value) : result value :=
  match keys with
  | [] => Ok exp
  | k :: keys' =>
      try path := get_dict_value_by_str w exp k in
      try path := as_path path in
      let path := abspath w (expanduser w path) in
      try exp := set_dict_value_by_str w exp k (VStr path) in
      normalize_paths w keys' exp
  end.

(** Lines 71 to 77: the descriptor and [verbose]. *)
Definition apply_verbosity (a : args) (exp : value) : result (value * Z) :=
  let verbose := 1%Z in
  try '(exp, verbose) :=
    (if flag_v a then
       try exp := setitem2 exp "config" "log_level" (VStr "INFO") in
       Ok (exp, 2%Z)
     else Ok (exp, verbose)) in
  try '(exp, verbose) :=
    (if flag_vv a then
       try exp := setitem2 exp "config" "log_level" (VStr "DEBUG") in
       Ok (exp, 3%Z)
     else Ok (exp, verbose)) in
  Ok (exp, verbose).

(** Lines 78 and 79. *)
Definition apply_local_mode (a : args) (exp : value) : result value :=
  if local_mode a then setitem2 exp "config" "num_workers" (VInt 0)
  else Ok exp.

(** Lines 61 to 79. *)
Definition get_experiment_configuration (w : world) (a : args) : M (value * Z) :=
  do experiments <- call (EvLoadYaml (config_file a)) (load_yaml w (config_file a));
  do exp <- lift (select_experiment experiments);
  do exp <- lift (setitem exp "trial_name_creator" trial_name_creator);
  do exp <- lift (normalize_paths w path_keys exp);
  do ev <- lift (apply_verbosity a exp);
  do exp <- lift (apply_local_mode a ev.1);
  lift (Ok (exp, ev.2)).

(** ** Update by task id (lines 82 to 88) *)

(** ['job_array.{}'.format(args.job_array_module)]; a missing option is
    formatted as [None]. *)
Definition module_name (a : args) : string :=
  "job_array." ++ match job_array_module a with
                  | Some name => name
                  | None => "None"
                  end.

Definition getattr (m : pymodule) (name : string) : result attr :=
  match module_dict m !! name with
  | Some x => Ok x
  | None => Err (AttributeError name)
  end.

(** Line 84: calling the attribute; an object that is not a function
    cannot be called. *)
Definition invoke (f : attr) (exp : value) (task_id : option Z) : M (value * value) :=
  match f with
  | AFun g => call (EvUpdateExp exp task_id) (g exp task_id)
  | AVal _ => lift (Err TypeError)
  end.

Definition say (ev : event) : M unit := call ev (Ok ()).

(** Lines 82 to 88: the descriptor and the experiment name. *)
Definition update_by_task_id (w : world) (a : args) (exp : value) : M (value * value) :=
  do job_array_mod <- call (EvImport (module_name a)) (import_module w (module_name a));
  do update_exp_by_task_id <- lift (getattr job_array_mod "update_exp_by_task_id");
  do r <- invoke update_exp_by_task_id exp (job_array_task_id a);
  do _ <- say (EvPrint "");
  do _ <- say (EvPPrint r.1);
  do _ <- say (EvPrint "");
  lift (Ok r).

(** ** Registration and runtime start (lines 93 to 103) *)

(** Lines 93 and 94: the environment creator. *)
Definition register (w : world) (exp : value) : M value :=
  do env <- lift (getitem exp "env");
  do env_creator <- call (EvRegisterEnv env) (register_custom_env w env);
  do model <- lift (getitem2 exp "config" "model");
  do _ <- call (EvRegisterModel model) (register_custom_model w model);
  lift (Ok env_creator).

(** Lines 97 to 103. *)
Definition start_ray (w : world) (a : args) (exp : value) : M unit :=
  let temp := abspath w (expanduser w (temp_dir a)) in
  do cpus <- lift (getitem2 exp "ray_resources" "num_cpus");
  do gpus <- lift (getitem2 exp "ray_resources" "num_gpus");
  let ia := {| init_local_mode := local_mode a; init_temp_dir := temp;
               include_dashboard := false; num_cpus := cpus; num_gpus := gpus |} in
  call (EvRayInit ia) (ray_init w ia).

(** ** Callbacks (lines 106 to 109) *)

Definition set_up_callbacks (w : world) (env_creator exp : value)
  : M (policy_manager * value) :=
  do config <- lift (getitem exp "config");
  do pm <- call (EvPolicyManager env_creator config) (PolicyManager w env_creator config);
  do config <- lift (getitem exp "config");
  do has <- lift (has_key config "callbacks");
  if (has : bool) then
    do ids <- lift (agent_ids pm);
    do exp <- call (EvSetCallbacks exp ids) (set_callbacks w exp ids);
    lift (Ok (pm, exp))
  else lift (Ok (pm, exp)).

(** ** Multi-agent setup (lines 112 to 117) *)

(** What a [for] loop walks through: the items of a list, the keys of a
    mapping, the characters of a string; the other values of the model are
    not iterable. Python walks the keys of a mapping in the order of their
    insertion; a [gmap] does not keep that order, so for a mapping the
    keys come in the order of the map, and only what does not depend on
    the order is stated about a walk over a mapping. *)
Definition iterate (o : value) : result (list value) :=
  match o with
  | VList l => Ok l
  | VDict m => Ok (VStr <$> (map_to_list m).*1)
  | VStr s => Ok ((λ c, VStr (String c EmptyString)) <$> String.list_ascii_of_string s)
  | _ => Err TypeError
  end.

(** An object used as a key: a list or a mapping is unhashable; a string
    is a key of the model; the other hashable objects are outside it. *)
Definition as_key (o : value) : result string :=
  match o with
  | VStr s => Ok s
  | VList _ | VDict _ => Err TypeError
  | _ => Err (Unmodelled "key")
  end.

(** Lines 114 and 115, over the ids still to visit. *)
Fixpoint fill_policies (pm : policy_manager) (ids : list value) (exp : value)
  : result value :=
  match ids with
  | [] => Ok exp
  | p_id :: ids' =>
      try policy := get_policy pm p_id in
      try policies := getitem3 exp "config" "multiagent" "policies" in
      try k := as_key p_id in
      try policies := setitem policies k policy in
      try exp := setitem3 exp "config" "multiagent" "policies" policies in
      fill_policies pm ids' exp
  end.

(** Lines 112 to 117. *)
Definition setup_multiagent (pm : policy_manager) (exp : value) : result value :=
  try policy_ids := getitem3 exp "config" "multiagent" "policies" in
  try exp := setitem3 exp "config" "multiagent" "policies" (VDict ∅) in
  try ids := iterate policy_ids in
  try exp := fill_policies pm ids exp in
  try fn := getitem3 exp "config" "multiagent" "policy_mapping_fn" in
  try fn := get_policy_mapping_fn pm fn in
  setitem3 exp "config" "multiagent" "policy_mapping_fn" fn.

(** ** Hyperparameter tuning (lines 120 to 124) *)

Definition tune_keys : list string :=
  ["lr"; "num_sgd_iter"; "train_batch_size"; "sgd_minibatch_size"; "vf_loss_coeff";
   "vf_clip_param"; "entropy_coeff"; "kl_coeff"; "kl_target"; "clip_param"].

(** [isinstance(v, list)] *)
Definition is_list (o : value) : bool :=
  match o with
  | VList _ => true
  | _ => false
  end.

(** Lines 123 and 124 for one item [(k, v)] of the walk, on the config
    as it stands. *)
Definition tune_item (w : world) (config : gmap string value) (item : string * value)
  : gmap string value :=
  if bool_decide (item.1 ∈ tune_keys) && is_list item.2
  then <[item.1 := grid_search w item.2]> config
  else config.

(** Lines 122 to 124: the walk over [exp['config'].items()]. *)
Definition handle_tuning (w : world) (exp : value) : result value :=
  try config := getitem exp "config" in
  match config with
  | VDict c => setitem exp "config" (VDict (foldl (tune_item w) c (map_to_list c)))
  | _ => Err (AttributeError "items")
  end.

(** ** Conversion to the runner's format (lines 127 to 133) *)

(** Lines 127 and 128. *)
Definition move_env (exp : value) : result value :=
  try env := getitem exp "env" in
  try exp := setitem2 exp "config" "env" env in
  delitem exp "env".

(** [exp[k] = None if k not in exp.keys() else exp[k]] *)
Definition default_none (k : string) (exp : value) : result value :=
  try present := has_key exp k in
  try x := (if negb present then Ok VNone else getitem exp k) in
  setitem exp k x.

(** Lines 129 to 133. *)
Definition default_optional (exp : value) : result value :=
  try exp := default_none "restore" exp in
  try exp := default_none "keep_checkpoints_num" exp in
  default_none "resources_per_trial" exp.

Definition convert_to_experiment (exp : value) : result value :=
  try exp := move_env exp in
  default_optional exp.

(** ** Trainer, run, shutdown (lines 136 to 155) *)

(** The arguments of line 139 to 152, evaluated left to right. *)
Definition assemble (trainer exp_name : value) (verbose : Z) (exp : value)
  : result run_args :=
  try stop := getitem exp "stop" in
  try config := getitem exp "config" in
  try resources_per_trial := getitem exp "resources_per_trial" in
  try num_samples := getitem exp "num_samples" in
  try local_dir := getitem exp "local_dir" in
  try keep_checkpoints_num := getitem exp "keep_checkpoints_num" in
  try checkpoint_freq := getitem exp "checkpoint_freq" in
  try checkpoint_at_end := getitem exp "checkpoint_at_end" in
  try creator := getitem exp "trial_name_creator" in
  try restore := getitem exp "restore" in
  Ok {| run_trainer := trainer; run_name := exp_name; run_stop := stop;
        run_config := config; run_resources_per_trial := resources_per_trial;
        run_num_samples := num_samples; run_local_dir := local_dir;
        run_keep_checkpoints_num := keep_checkpoints_num;
        run_checkpoint_freq := checkpoint_freq;
        run_checkpoint_at_end := checkpoint_at_end; run_verbose := verbose;
        run_trial_name_creator := creator; run_restore := restore |}.

(** Lines 139 to 155: the runner, then the shutdown; [main] ends without
    a [return], so its value is [None]. *)
Definition run_experiment (w : world) (ra : run_args) : M value :=
  do _ <- call (EvTuneRun ra) (tune_run w ra);
  do _ <- call EvRayShutdown (ray_shutdown w);
  lift (Ok VNone).

(** Lines 82 to 136: from the descriptor of the first phase to the
    arguments of the runner. *)
Definition prepare (w : world) (a : args) (exp : value) (verbose : Z) : M run_args :=
  do r <- update_by_task_id w a exp;
  let exp := r.1 in
  let exp_name := r.2 in
  do env_creator <- register w exp;
  do _ <- start_ray w a exp;
  do r <- set_up_callbacks w env_creator exp;
  let policy_manager := r.1 in
  do exp <- lift (setup_multiagent policy_manager r.2);
  do exp <- lift (handle_tuning w exp);
  do exp <- lift (convert_to_experiment exp);
  do run <- lift (getitem exp "run");
  do trainer <- lift (get_trainer_class w run);
  lift (assemble trainer exp_name verbose exp).

Definition main (w : world) (a : args) : M value :=
  do ev <- get_experiment_configuration w a;
  do ra <- prepare w a ev.1 ev.2;
  run_experiment w ra.

(** ** Vocabulary of the statements *)

(** The descriptor with its config and the config's multiagent mapping
    spelled out. *)
Definition nest (e c ma : gmap string value) : value :=
  VDict (<["config" := VDict (<["multiagent" := VDict ma]> c)]> e).

(** The descriptor after lines 129 to 133. *)
Definition defaulted (e : gmap string value) : gmap string value :=
  <["resources_per_trial" := default VNone (e !! "resources_per_trial")]>
    (<["keep_checkpoints_num" := default VNone (e !! "keep_checkpoints_num")]>
       (<["restore" := default VNone (e !! "restore")]> e)).


(** The descriptor as line 65 leaves it. *)
Definition named (e : gmap string value) : gmap string value :=
  <["trial_name_creator" := trial_name_creator]> e.

(** What lines 123 and 124 make of the value under key [k]. *)
Definition tuned (w : world) (k : string) (x : value) : value :=
  if bool_decide (k ∈ tune_keys) && is_list x then grid_search w x else x.

(** The two calls that end [main]. *)
Definition launches (ev : event) : bool :=
  match ev with
  | EvTuneRun _ | EvRayShutdown => true
  | _ => false
  end.

(** A computation that calls neither the runner nor the shutdown. *)
Definition quiet {A} (m : M A) : Prop :=
  Forall (λ ev, launches ev = false) (trace m).

(** Lines 61 to 136: everything before the runner is called. *)
Definition assembled (w : world) (a : args) : M run_args :=
  do ev <- get_experiment_configuration w a;
  prepare w a ev.1 ev.2.

(** The claim as the specification words it: whatever the runner yields,
    value or error, is what [main] yields. *)
Definition runner_outcome_propagated (w : world) (a : args) : Prop :=
  ∀ ra, EvTuneRun ra ∈ trace (main w a) → outcome (main w a) = tune_run w ra.

(** The arguments of the runner calls in a trace. *)
Definition runner_calls (t : list event) : list run_args :=
  omap (λ ev, match ev with EvTuneRun ra => Some ra | _ => None end) t.

(** ** A sample run *)

(** A descriptor, a command line and collaborators on which [main] runs
    to its end; the theorems below are instantiated on them. *)
Module Sample.

Definition multiagent : gmap string value :=
  list_to_map
    [("policies", VList [VStr "ego"; VStr "other"]);
     ("policy_mapping_fn", VStr "all_to_ego");
     ("policies_to_train", VList [VStr "ego"])].

Definition config : gmap string value :=
  list_to_map
    [("lr", VList [VFloat 1 (-10); VFloat 1 (-13)]);
     ("num_workers", VInt 4);
     ("train_batch_size", VInt 4000);
     ("gamma", VList [VFloat 1 (-1)]);
     ("model", VDict {[ "custom_model" := VStr "Base" ]});
     ("multiagent", VDict multiagent)].

Definition descriptor : gmap string value :=
  list_to_map
    [("run", VStr "PPO");
     ("env", VStr "LaneFollowing");
     ("stop", VDict {[ "timesteps_total" := VInt 1000000 ]});
     ("checkpoint_freq", VInt 10);
     ("checkpoint_at_end", VBool true);
     ("num_samples", VInt 1);
     ("local_dir", VStr "~/ray_results");
     ("restore", VStr "/ckpt/42");
     ("ray_resources", VDict (list_to_map [("num_cpus", VInt 8); ("num_gpus", VInt 1)]));
     ("config", VDict config)].

Definition experiments : value := VDict {[ "lane_following" := VDict descriptor ]}.

Definition home_expanduser (p : string) : string :=
  match p with
  | String "~"%char rest => "/home/user" ++ rest
  | _ => p
  end.

Definition cwd_abspath (p : string) : string :=
  match p with
  | String "/"%char _ => p
  | _ => "/work/" ++ p
  end.

(** A callback that picks the learning rate of the task. *)
Definition pick_lr (exp : value) (task_id : option Z) : result (value * value) :=
  match task_id with
  | Some i =>
      try lrs := getitem2 exp "config" "lr" in
      match lrs with
      | VList l =>
          match l !! Z.to_nat i with
          | Some lr =>
              try exp := setitem2 exp "config" "lr" lr in
              Ok (exp, VStr "lane_following_lr")
          | None => Err IndexError
          end
      | _ => Err TypeError
      end
  | None => Err TypeError
  end.

Definition modules (name : string) : result pymodule :=
  if decide (name = "job_array.lr_sweep")
  then Ok {| module_dict := {[ "update_exp_by_task_id" := AFun pick_lr ]} |}
  else if decide (name = "job_array.empty")
  then Ok {| module_dict := ∅ |}
  else Err (ModuleNotFoundError name).

Definition manager : policy_manager :=
  {| agent_ids := Ok (VList [VStr "agent_0"]);
     get_policy := λ p_id, Ok (VList [VOpaque "policy"; p_id]);
     get_policy_mapping_fn := λ fn, Ok (VList [VOpaque "mapping_fn"; fn]) |}.

(** The collaborators, given what the YAML file holds. *)
Definition collaborators_loading (loaded : value) : world :=
  {| load_yaml := λ _, Ok loaded;
     get_dict_value_by_str := plain_get;
     set_dict_value_by_str := plain_set;
     expanduser := home_expanduser;
     abspath := cwd_abspath;
     import_module := modules;
     register_custom_env := λ _, Ok (VOpaque "env_creator");
     register_custom_model := λ _, Ok ();
     ray_init := λ _, Ok ();
     PolicyManager := λ _ _, Ok manager;
     set_callbacks := λ exp _, Ok exp;
     grid_search := λ x, VDict {[ "grid_search" := x ]};
     get_trainer_class := λ run, Ok (VList [VOpaque "trainer"; run]);
     tune_run := λ _, Ok (VOpaque "ExperimentAnalysis");
     ray_shutdown := Ok () |}.

Definition collaborators : world := collaborators_loading experiments.

(** A file with two experiments. *)
Definition two_experiments : gmap string value :=
  {[ "lane_following" := VDict descriptor; "overtaking" := VDict descriptor ]}.

(** The command line, given the name of the job-array module. *)
Definition command_line_for (module : option string) : args :=
  {| config_file := Some "lane_following.yaml"; temp_dir := "~/tmp";
     resume := false; flag_v := true; flag_vv := false; local_mode := true;
     job_array_module := module; job_array_task_id := Some 1%Z |}.

Definition command_line : args := command_line_for (Some "lr_sweep").

End Sample.

(** ** Further vocabulary *)

(** The verbosity lines 71 to 77 arrive at. *)
Definition verbosity (a : args) : Z :=
  if flag_vv a then 3%Z else if flag_v a then 2%Z else 1%Z.

(** The config as lines 72 to 79 leave it. *)
Definition flagged (a : args) (c : gmap string value) : gmap string value :=
  let c := if flag_v a then <["log_level" := VStr "INFO"]> c else c in
  let c := if flag_vv a then <["log_level" := VStr "DEBUG"]> c else c in
  if local_mode a then <["num_workers" := VInt 0]> c else c.

(** Lines 71 to 79 in the order of the source, and with the local-mode
    lines first. *)
Definition verbosity_then_local_mode (a : args) (exp : value) : result (value * Z) :=
  try ev := apply_verbosity a exp in
  try exp := apply_local_mode a ev.1 in
  Ok (exp, ev.2).

Definition local_mode_then_verbosity (a : args) (exp : value) : result (value * Z) :=
  try exp := apply_local_mode a exp in
  apply_verbosity a exp.

(** The collaborator behind each call. *)
Inductive call_kind : Type :=
| KLoadYaml | KImport | KUpdateExp | KPrint | KPPrint | KRegisterEnv
| KRegisterModel | KRayInit | KPolicyManager | KSetCallbacks | KTuneRun
| KRayShutdown.

Definition kind_of (ev : event) : call_kind :=
  match ev with
  | EvLoadYaml _ => KLoadYaml
  | EvImport _ => KImport
  | EvUpdateExp _ _ => KUpdateExp
  | EvPrint _ => KPrint
  | EvPPrint _ => KPPrint
  | EvRegisterEnv _ => KRegisterEnv
  | EvRegisterModel _ => KRegisterModel
  | EvRayInit _ => KRayInit
  | EvPolicyManager _ _ => KPolicyManager
  | EvSetCallbacks _ _ => KSetCallbacks
  | EvTuneRun _ => KTuneRun
  | EvRayShutdown => KRayShutdown
  end.

(** The calls of a complete run of [main], with or without the call of
    line 109. *)
Definition call_order (callbacks : bool) : list call_kind :=
  [KLoadYaml; KImport; KUpdateExp; KPrint; KPPrint; KPrint; KRegisterEnv;
   KRegisterModel; KRayInit; KPolicyManager]
  ++ (if callbacks then [KSetCallbacks] else [])
  ++ [KTuneRun; KRayShutdown].

(** A computation whose calls are [l] when it returns and the first few
    of [l] when it raises. *)
Definition steps_within {A} (l : list call_kind) (m : M A) : Prop :=
  match outcome m with
  | Ok _ => kind_of <$> trace m = l
  | Err _ => (kind_of <$> trace m) `prefix_of` l
  end.

(** [isinstance(o, dict)] *)
Definition is_mapping (o : value) : bool :=
  match o with
  | VDict _ => true
  | _ => false
  end.

(** ** More sample data *)

Module Edge.

(** A callback that ignores the descriptor it is handed. *)
Definition fixed (exp : value) (task_id : option Z) : result (value * value) :=
  Ok (VDict Sample.descriptor, VStr "fixed").

Definition modules (name : string) : result pymodule :=
  if decide (name = "job_array.fixed")
  then Ok {| module_dict := {[ "update_exp_by_task_id" := AFun fixed ]} |}
  else if decide (name = "job_array.constants")
  then Ok {| module_dict := {[ "update_exp_by_task_id" := AVal (VInt 3) ]} |}
  else Sample.modules name.

(** The sample collaborators with these modules on the import path. *)
Definition collaborators : world :=
  {| load_yaml := load_yaml Sample.collaborators;
     get_dict_value_by_str := get_dict_value_by_str Sample.collaborators;
     set_dict_value_by_str := set_dict_value_by_str Sample.collaborators;
     expanduser := expanduser Sample.collaborators;
     abspath := abspath Sample.collaborators;
     import_module := modules;
     register_custom_env := register_custom_env Sample.collaborators;
     register_custom_model := register_custom_model Sample.collaborators;
     ray_init := ray_init Sample.collaborators;
     PolicyManager := PolicyManager Sample.collaborators;
     set_callbacks := set_callbacks Sample.collaborators;
     grid_search := grid_search Sample.collaborators;
     get_trainer_class := get_trainer_class Sample.collaborators;
     tune_run := tune_run Sample.collaborators;
     ray_shutdown := ray_shutdown Sample.collaborators |}.

(** A task id past the end of the learning rates. *)
Definition late_task : args :=
  {| config_file := Some "lane_following.yaml"; temp_dir := "~/tmp";
     resume := false; flag_v := false; flag_vv := false; local_mode := false;
     job_array_module := Some "lr_sweep"; job_array_task_id := Some 7%Z |}.

(** The descriptor of the sample file as lines 65 to 70 leave it. *)
Definition prepared : gmap string value :=
  <["local_dir" := VStr "/home/user/ray_results"]>
    (<["trial_name_creator" := trial_name_creator]> Sample.descriptor).

End Edge.

Module Strict.

(** A policy manager that knows one policy. *)
Definition manager : policy_manager :=
  {| agent_ids := Ok (VList [VStr "agent_0"]);
     get_policy := λ p_id,
       match p_id with
       | VStr "ego" => Ok (VOpaque "ego_policy")
       | _ => Err (Raised "unknown policy")
       end;
     get_policy_mapping_fn := λ fn, Ok fn |}.

End Strict.

(** ** The trial name (lines 158 to 161) *)

(** The bytes that [bytes.strip()] removes: space, tab, line feed,
    vertical tab, form feed and carriage return. *)
Definition is_space (c : ascii) : bool :=
  bool_decide (nat_of_ascii c ∈ [32; 9; 10; 11; 12; 13]).

Fixpoint lstrip (b : string) : string :=
  match b with
  | EmptyString => EmptyString
  | String c rest => if is_space c then lstrip rest else b
  end.

Fixpoint rstrip (b : string) : string :=
  match b with
  | EmptyString => EmptyString
  | String c rest =>
      match rstrip rest with
      | EmptyString => if is_space c then EmptyString else String c EmptyString
      | kept => String c kept
      end
  end.

(** [b.strip()] on a byte string. *)
Definition strip (b : string) : string := rstrip (lstrip b).

(** What line 159 calls outside the script: the subprocess and the
    codec. *)
Record shell : Type := {
  check_output : list string → result string;
  decode_utf8 : string → result string }.

(** Lines 158 to 161, the function behind the value [trial_name_creator];
    [trial] stands for [str(trial)]. *)
Definition trial_name (sh : shell) (trial : string) : result string :=
  try output := check_output sh ["git"; "rev-parse"; "--short"; "HEAD"] in
  try githash := decode_utf8 sh (strip output) in
  Ok (trial ++ "_" ++ githash).

Module Git.

(** A repository whose HEAD is at [3f2a91c]; the command prints the hash
    and a line feed. *)
Definition repository : shell :=
  {| check_output := λ _, Ok ("3f2a91c" ++ String (ascii_of_nat 10) EmptyString);
     decode_utf8 := λ b, Ok b |}.

End Git.

(** ** Sharing and paths *)

(** [inside x o]: the value [x] occurs in [o], as [o] itself or somewhere
    below it. A mapping that two places of a loaded descriptor share (a
    YAML alias) occurs in both; so a value in which the config does not
    occur shares nothing with it, and a write into the config cannot show
    through it. *)
Inductive inside (x : value) : value → Prop :=
| inside_here : inside x x
| inside_item (l : list value) (o : value) :
    o ∈ l → inside x o → inside x (VList l)
| inside_entry (d : gmap string value) (k : string) (o : value) :
    d !! k = Some o → inside x o → inside x (VDict d).

(** The fields of a descriptor that hold a path: the directory of the
    results and the checkpoint to restore. *)
Definition path_valued : list string := ["local_dir"; "restore"].

(** The normalization as the specification words it: every path-valued
    field that held a path holds its absolute, user-expanded form. *)
Definition every_path_normalized (w : world) (exp exp' : value) : Prop :=
  ∀ k p, k ∈ path_valued →
    getitem exp k = Ok (VStr p) →
    getitem exp' k = Ok (VStr (abspath w (expanduser w p))).

Module Tilde.

(** The sample descriptor, restoring from a checkpoint under the home
    directory. *)
Definition descriptor : gmap string value :=
  <["restore" := VStr "~/ckpt/42"]> Sample.descriptor.

End Tilde.

(** * Properties *)

Example getitem2_ex :
  getitem2 (VDict {[ "config" := VDict {[ "lr" := VInt 3 ]} ]}) "config" "lr" = Ok (VInt 3).
Proof. reflexivity. Qed.

Example setitem2_ex :
  setitem2 (VDict {[ "config" := VDict ∅ ]}) "config" "num_workers" (VInt 0)
  = Ok (VDict {[ "config" := VDict {[ "num_workers" := VInt 0 ]} ]}).
Proof. vm_compute. reflexivity. Qed.

(** ** Subscripting on mappings *)

(** Evaluates subscripts of mappings that were just written. *)
Ltac subscript :=
  repeat progress (cbn [getitem setitem rbind]; rewrite ?lookup_insert_eq).

(** Membership in a list that is written out. *)
Ltac in_list := by repeat constructor.

Section Subscripting.
Implicit Types (e c ma : gmap string value) (k : string) (x : value).

Lemma getitem_dict e k x : e !! k = Some x → getitem (VDict e) k = Ok x.
Proof. intros H. simpl. by rewrite H. Qed.

Lemma setitem2_dict e c k1 k2 x :
  e !! k1 = Some (VDict c) →
  setitem2 (VDict e) k1 k2 x = Ok (VDict (<[k1 := VDict (<[k2 := x]> c)]> e)).
Proof. intros H. unfold setitem2. simpl. by rewrite H. Qed.

Lemma nest_id e c ma :
  e !! "config" = Some (VDict c) → c !! "multiagent" = Some (VDict ma) →
  VDict e = nest e c ma.
Proof. intros He Hc. unfold nest. by rewrite (insert_id c), (insert_id e). Qed.

Lemma getitem3_nest e c ma k :
  getitem3 (nest e c ma) "config" "multiagent" k = getitem (VDict ma) k.
Proof.
  unfold getitem3, getitem2, nest. by subscript.
Qed.

Lemma setitem3_nest e c ma k x :
  setitem3 (nest e c ma) "config" "multiagent" k x = Ok (nest e c (<[k := x]> ma)).
Proof.
  unfold setitem3, setitem2, nest. subscript.
  by rewrite !insert_insert_eq.
Qed.

End Subscripting.

(** ** The trace of the first phase *)

Lemma bind_lift_ok {A B} (a : A) (k : A → M B) : bind (lift (Ok a)) k = k a.
Proof. unfold bind, lift. by destruct (k a). Qed.

Lemma bind_lift_err {A B} (e : exn) (k : A → M B) : bind (lift (Err e)) k = lift (Err e).
Proof. reflexivity. Qed.

(** The calls of lines 61 to 79 are the load alone. *)
Lemma get_experiment_configuration_trace w a :
  trace (get_experiment_configuration w a) = [EvLoadYaml (config_file a)].
Proof.
  unfold get_experiment_configuration, call.
  destruct (load_yaml w (config_file a)) as [experiments|]; [|done].
  cbn [bind].
  repeat match goal with
  | |- context [bind (lift ?r) _] =>
      destruct r; [rewrite bind_lift_ok | rewrite bind_lift_err; done]
  end.
  done.
Qed.

Lemma select_experiment_size m :
  size m ≠ 1 → select_experiment (VDict m) = Err AssertionError.
Proof.
  intros Hsize. unfold select_experiment.
  rewrite length_fmap, length_map_to_list.
  by destruct (decide (size m = 1)).
Qed.

(** ** C1 *)

(** C1. When the loaded mapping does not have exactly one top-level
    experiment name (none, or more than one), [main] ends in the failed
    assertion of line 63 and the load is the only call it has made; hence
    a run of [main] that returns was given a mapping with exactly one
    name. *)
Theorem load_requires_one_experiment (w : world) (a : args) (m : gmap string value) :
  load_yaml w (config_file a) = Ok (VDict m) →
  (size m ≠ 1 →
     main w a = ([EvLoadYaml (config_file a)], Err AssertionError))
  ∧ (∀ x, outcome (main w a) = Ok x → size m = 1).
Proof.
  intros Hload.
  assert (size m ≠ 1 →
          main w a = ([EvLoadYaml (config_file a)], Err AssertionError)) as Hfail.
  { intros Hsize. unfold main, get_experiment_configuration, call.
    rewrite Hload. cbn [bind]. by rewrite select_experiment_size. }
  split; [done|].
  intros x Hx. destruct (decide (size m = 1)) as [|Hne]; [done|].
  rewrite (Hfail Hne) in Hx. discriminate.
Qed.

Lemma load_requires_one_experiment_witness :
  main (Sample.collaborators_loading (VDict Sample.two_experiments)) Sample.command_line
  = ([EvLoadYaml (Some "lane_following.yaml")], Err AssertionError).
Proof.
  refine (proj1 (load_requires_one_experiment _ _ Sample.two_experiments _) _).
  - reflexivity.
  - vm_compute. lia.
Defined.

(** ** C3 *)

(** C3. On a descriptor whose config is a mapping, the verbosity step
    returns, and by the two flags: with neither, the descriptor as it was
    (the log level is not touched) and verbosity 1; with [-v] and not
    [-vv], log level INFO and verbosity 2; with [-vv] (with or without
    [-v]), log level DEBUG and verbosity 3. Nothing else in the descriptor
    or its config changes. *)
Theorem verbosity_tiers (a : args) (e c : gmap string value) :
  e !! "config" = Some (VDict c) →
  apply_verbosity a (VDict e) =
    Ok (match flag_v a, flag_vv a with
        | false, false => (VDict e, 1%Z)
        | true, false =>
            (VDict (<["config" := VDict (<["log_level" := VStr "INFO"]> c)]> e), 2%Z)
        | _, true =>
            (VDict (<["config" := VDict (<["log_level" := VStr "DEBUG"]> c)]> e), 3%Z)
        end).
Proof.
  intros Hc. unfold apply_verbosity.
  destruct (flag_v a), (flag_vv a); cbn [rbind];
    rewrite ?(setitem2_dict e c) by done; cbn [rbind];
    rewrite ?(setitem2_dict _ (<["log_level" := VStr "INFO"]> c))
      by apply lookup_insert_eq;
    cbn [rbind]; rewrite ?insert_insert_eq; done.
Qed.

Lemma verbosity_tiers_witness :
  apply_verbosity Sample.command_line (VDict Sample.descriptor) =
    Ok (VDict (<["config" := VDict (<["log_level" := VStr "INFO"]> Sample.config)]>
                 Sample.descriptor), 2%Z).
Proof.
  apply (verbosity_tiers Sample.command_line Sample.descriptor Sample.config).
  reflexivity.
Defined.

(** ** C4 *)

(** C4. With the local-mode flag set, on a descriptor whose config is a
    mapping, the step returns the descriptor with [num_workers] of its
    config set to 0, whatever the config held there before. *)
Theorem local_mode_zero_workers (a : args) (e c : gmap string value) :
  local_mode a = true →
  e !! "config" = Some (VDict c) →
  ∃ exp',
    apply_local_mode a (VDict e) = Ok exp'
    ∧ exp' = VDict (<["config" := VDict (<["num_workers" := VInt 0]> c)]> e)
    ∧ getitem2 exp' "config" "num_workers" = Ok (VInt 0).
Proof.
  intros Hflag Hc. eexists. unfold apply_local_mode. rewrite Hflag.
  split; [by apply setitem2_dict|]. split; [done|].
  unfold getitem2. by subscript.
Qed.

Lemma local_mode_zero_workers_witness :
  ∃ exp',
    apply_local_mode Sample.command_line (VDict Sample.descriptor) = Ok exp'
    ∧ exp' = VDict (<["config" := VDict (<["num_workers" := VInt 0]> Sample.config)]>
                      Sample.descriptor)
    ∧ getitem2 exp' "config" "num_workers" = Ok (VInt 0).
Proof.
  apply (local_mode_zero_workers Sample.command_line Sample.descriptor Sample.config).
  - reflexivity.
  - reflexivity.
Defined.

(** ** C5 and C6: the conversion *)

Section Conversion.
Implicit Types (e c : gmap string value) (k : string).

Lemma move_env_dict e c env :
  e !! "env" = Some env → e !! "config" = Some (VDict c) →
  move_env (VDict e)
  = Ok (VDict (delete "env" (<["config" := VDict (<["env" := env]> c)]> e))).
Proof.
  intros He Hc. unfold move_env. rewrite (getitem_dict e "env" env) by done.
  cbn [rbind]. rewrite (setitem2_dict e c) by done. cbn [rbind delitem].
  by rewrite lookup_insert_ne, He.
Qed.

Lemma default_none_dict k e :
  default_none k (VDict e) = Ok (VDict (<[k := default VNone (e !! k)]> e)).
Proof.
  unfold default_none. cbn [has_key rbind getitem].
  destruct (e !! k) as [x|] eqn:Hk.
  - rewrite bool_decide_eq_true_2 by eauto. done.
  - rewrite bool_decide_eq_false_2 by (by intros [? ?]). done.
Qed.

Lemma default_optional_dict e :
  default_optional (VDict e) = Ok (VDict (defaulted e)).
Proof.
  unfold default_optional, defaulted. rewrite default_none_dict. cbn [rbind].
  rewrite default_none_dict. cbn [rbind]. rewrite default_none_dict.
  by rewrite !lookup_insert_ne.
Qed.

Lemma defaulted_other e k :
  k ≠ "restore" → k ≠ "keep_checkpoints_num" → k ≠ "resources_per_trial" →
  defaulted e !! k = e !! k.
Proof. intros. unfold defaulted. by rewrite !lookup_insert_ne. Qed.

End Conversion.

(** C5. On a descriptor with a top-level [env] key (and a config that is a
    mapping), the reshaping of lines 127 to 133 returns a descriptor whose
    config holds the former top-level value under [env] and which has no
    top-level [env] key. *)
Theorem env_moved_under_config (e c : gmap string value) (env : value) :
  e !! "env" = Some env →
  e !! "config" = Some (VDict c) →
  ∃ exp',
    convert_to_experiment (VDict e) = Ok exp'
    ∧ getitem2 exp' "config" "env" = Ok env
    ∧ has_key exp' "env" = Ok false
    ∧ getitem exp' "env" = Err (KeyError "env").
Proof.
  intros He Hc. eexists. unfold convert_to_experiment.
  rewrite (move_env_dict e c env) by done. cbn [rbind].
  split; [apply default_optional_dict|].
  assert (defaulted (delete "env" (<["config" := VDict (<["env" := env]> c)]> e))
            !! "env" = None) as Henv.
  { rewrite defaulted_other by done. apply lookup_delete_eq. }
  split; [|split].
  - unfold getitem2. cbn [getitem].
    rewrite defaulted_other by done.
    rewrite lookup_delete_ne, lookup_insert_eq by done.
    cbn [rbind getitem]. by rewrite lookup_insert_eq.
  - cbn [has_key]. by rewrite Henv.
  - cbn [getitem]. by rewrite Henv.
Qed.

Lemma env_moved_under_config_witness :
  ∃ exp',
    convert_to_experiment (VDict Sample.descriptor) = Ok exp'
    ∧ getitem2 exp' "config" "env" = Ok (VStr "LaneFollowing")
    ∧ has_key exp' "env" = Ok false
    ∧ getitem exp' "env" = Err (KeyError "env").
Proof.
  apply (env_moved_under_config Sample.descriptor Sample.config).
  - reflexivity.
  - reflexivity.
Defined.



Example sample_restore_kept :
  default VNone (named Sample.descriptor !! "restore") = VStr "/ckpt/42"
  ∧ default VNone (named Sample.descriptor !! "keep_checkpoints_num") = VNone.
Proof. by vm_compute. Qed.

(** ** C7 *)

(** C7, amended. The path keys of line 66 are [local_dir] alone. When the
    two helpers of [misc] read and write the field named by the key, and
    [local_dir] holds a string, lines 66 to 70 return the descriptor with
    [local_dir] replaced by [abspath (expanduser local_dir)] and every
    other field, the [restore] path among them, as it was. *)
Theorem local_dir_normalized (w : world) (e : gmap string value) (p : string) :
  (∀ d k, get_dict_value_by_str w d k = plain_get d k) →
  (∀ d k x, set_dict_value_by_str w d k x = plain_set d k x) →
  e !! "local_dir" = Some (VStr p) →
  ∃ e',
    normalize_paths w path_keys (VDict e) = Ok (VDict e')
    ∧ e' !! "local_dir" = Some (VStr (abspath w (expanduser w p)))
    ∧ ∀ k, k ≠ "local_dir" → e' !! k = e !! k.
Proof.
  intros Hget Hset Hp.
  exists (<["local_dir" := VStr (abspath w (expanduser w p))]> e).
  split; [|split].
  - unfold path_keys. cbn [normalize_paths].
    rewrite Hget. unfold plain_get.
    rewrite (getitem_dict e "local_dir" (VStr p)) by done.
    cbn [rbind as_path]. by rewrite Hset.
  - apply lookup_insert_eq.
  - intros k Hk. by rewrite lookup_insert_ne.
Qed.

Lemma local_dir_normalized_witness :
  ∃ e',
    normalize_paths Sample.collaborators path_keys (VDict Sample.descriptor)
    = Ok (VDict e')
    ∧ e' !! "local_dir"
      = Some (VStr (abspath Sample.collaborators
                      (expanduser Sample.collaborators "~/ray_results")))
    ∧ ∀ k, k ≠ "local_dir" → e' !! k = Sample.descriptor !! k.
Proof.
  apply (local_dir_normalized Sample.collaborators Sample.descriptor "~/ray_results").
  - reflexivity.
  - reflexivity.
  - reflexivity.
Defined.

Example sample_local_dir :
  abspath Sample.collaborators (expanduser Sample.collaborators "~/ray_results")
  = "/home/user/ray_results".
Proof. reflexivity. Qed.

(** C7, as worded, fails: [restore] is a path-valued field, and a
    [restore] under the home directory leaves lines 66 to 70 with its
    tilde. *)
Lemma restore_keeps_its_tilde :
  normalize_paths Sample.collaborators path_keys (VDict Tilde.descriptor)
  = Ok (VDict (<["local_dir" := VStr "/home/user/ray_results"]> Tilde.descriptor))
  ∧ ¬ every_path_normalized Sample.collaborators (VDict Tilde.descriptor)
        (VDict (<["local_dir" := VStr "/home/user/ray_results"]> Tilde.descriptor)).
Proof.
  split; [reflexivity|]. intros Hall.
  assert (getitem (VDict (<["local_dir" := VStr "/home/user/ray_results"]> Tilde.descriptor))
            "restore"
          = Ok (VStr (abspath Sample.collaborators
                        (expanduser Sample.collaborators "~/ckpt/42")))) as Hrestore.
  { apply Hall; [in_list|reflexivity]. }
  vm_compute in Hrestore. discriminate Hrestore.
Qed.

(** ** C2: the walk over the config *)

Section Tuning.
Variable w : world.
Implicit Types (c acc : gmap string value) (l : list (string * value)).

Lemma tune_item_lookup acc k0 x0 k :
  acc !! k0 = Some x0 →
  tune_item w acc (k0, x0) !! k
  = if decide (k = k0) then Some (tuned w k0 x0) else acc !! k.
Proof.
  intros Hacc. unfold tune_item, tuned. cbn [fst snd].
  destruct (bool_decide (k0 ∈ tune_keys) && is_list x0).
  - destruct (decide (k = k0)) as [->|Hne].
    + apply lookup_insert_eq.
    + by rewrite lookup_insert_ne.
  - destruct (decide (k = k0)) as [->|Hne]; done.
Qed.

(** The walk visits each key once, and what it writes under a key it
    has visited is not read again. *)
Lemma foldl_tune_item l : ∀ acc k,
  NoDup l.*1 →
  (∀ k' x, (k', x) ∈ l → acc !! k' = Some x) →
  foldl (tune_item w) acc l !! k
  = if decide (k ∈ l.*1) then tuned w k <$> acc !! k else acc !! k.
Proof.
  induction l as [|[k0 x0] l IH]; intros acc k Hnodup Hagree.
  - cbn [foldl fmap list_fmap]. by destruct (decide (k ∈ [])) as [Hin%elem_of_nil|].
  - cbn [foldl]. rewrite fmap_cons in Hnodup. cbn [fst] in Hnodup.
    apply NoDup_cons in Hnodup as [Hfresh Hnodup].
    assert (acc !! k0 = Some x0) as Hk0 by (apply Hagree; left).
    rewrite IH; [|done|].
    + rewrite fmap_cons. cbn [fst].
      rewrite tune_item_lookup by done.
      destruct (decide (k = k0)) as [->|Hne].
      * rewrite decide_False by done.
        rewrite decide_True by left. by rewrite Hk0.
      * destruct (decide (k ∈ l.*1)) as [Hin|Hnin].
        -- rewrite decide_True by (by right). done.
        -- rewrite decide_False; [done|].
           intros [?|?]%elem_of_cons; done.
    + intros k' x Hin. rewrite tune_item_lookup by done.
      rewrite decide_False; [apply Hagree; by right|].
      intros ->. apply Hfresh. apply list_elem_of_fmap. by exists (k0, x).
Qed.

Lemma tuning_lookup c k :
  foldl (tune_item w) c (map_to_list c) !! k = tuned w k <$> c !! k.
Proof.
  rewrite foldl_tune_item.
  - destruct (decide (k ∈ (map_to_list c).*1)) as [|Hnin]; [done|].
    destruct (c !! k) as [x|] eqn:Hk; [|done].
    exfalso. apply Hnin. apply list_elem_of_fmap. exists (k, x).
    split; [done|]. by apply elem_of_map_to_list.
  - apply NoDup_fst_map_to_list.
  - intros k' x. apply elem_of_map_to_list.
Qed.

End Tuning.

(** C2. On a descriptor whose config is a mapping, lines 120 to 124 return
    the descriptor with a config in which each of the ten keys [lr],
    [num_sgd_iter], [train_batch_size], [sgd_minibatch_size],
    [vf_loss_coeff], [vf_clip_param], [entropy_coeff], [kl_coeff],
    [kl_target] and [clip_param] whose value was a list holds
    [grid_search] of exactly that list, and every key that is not one of
    the ten, and every key whose value was not a list, holds what it held;
    no key is added or removed. *)
Theorem grid_search_on_tune_keys (w : world) (e c : gmap string value) :
  e !! "config" = Some (VDict c) →
  ∃ c',
    handle_tuning w (VDict e) = Ok (VDict (<["config" := VDict c']> e))
    ∧ (∀ k l,
         k ∈ ["lr"; "num_sgd_iter"; "train_batch_size"; "sgd_minibatch_size";
              "vf_loss_coeff"; "vf_clip_param"; "entropy_coeff"; "kl_coeff";
              "kl_target"; "clip_param"] →
         c !! k = Some (VList l) →
         c' !! k = Some (grid_search w (VList l)))
    ∧ (∀ k,
         k ∉ ["lr"; "num_sgd_iter"; "train_batch_size"; "sgd_minibatch_size";
              "vf_loss_coeff"; "vf_clip_param"; "entropy_coeff"; "kl_coeff";
              "kl_target"; "clip_param"] →
         c' !! k = c !! k)
    ∧ (∀ k, (∀ l, c !! k ≠ Some (VList l)) → c' !! k = c !! k).
Proof.
  intros Hc. exists (foldl (tune_item w) c (map_to_list c)).
  split; [|split; [|split]].
  - unfold handle_tuning. by rewrite (getitem_dict e "config" (VDict c)).
  - intros k l Hk Hl. rewrite tuning_lookup, Hl. cbn. unfold tuned, tune_keys.
    by rewrite bool_decide_eq_true_2.
  - intros k Hk. rewrite tuning_lookup. unfold tuned, tune_keys.
    rewrite bool_decide_eq_false_2 by done. by destruct (c !! k).
  - intros k Hk. rewrite tuning_lookup. unfold tuned.
    destruct (c !! k) as [x|]; [|done]. cbn.
    destruct x; try by rewrite andb_false_r. by destruct (Hk l).
Qed.

(** On the sample: [lr], one of the ten keys, held a list and is wrapped;
    [gamma] held a list but is not one of the ten; [train_batch_size] is
    one of the ten but held a number. *)
Lemma grid_search_on_tune_keys_witness :
  ∃ c',
    handle_tuning Sample.collaborators (VDict Sample.descriptor)
    = Ok (VDict (<["config" := VDict c']> Sample.descriptor))
    ∧ c' !! "lr"
      = Some (grid_search Sample.collaborators (VList [VFloat 1 (-10); VFloat 1 (-13)]))
    ∧ c' !! "gamma" = Some (VList [VFloat 1 (-1)])
    ∧ c' !! "train_batch_size" = Some (VInt 4000).
Proof.
  destruct (grid_search_on_tune_keys Sample.collaborators Sample.descriptor
              Sample.config eq_refl) as (c' & Hrun & Hwrap & Hother & Hscalar).
  exists c'. split; [exact Hrun|]. clear Hrun. split; [|split].
  - apply Hwrap; [in_list|reflexivity].
  - rewrite Hother; [reflexivity|].
    intros Hin. apply list_elem_of_In in Hin. simpl in Hin. intuition discriminate.
  - rewrite Hscalar; [reflexivity|].
    intros l Hl. vm_compute in Hl. discriminate Hl.
Defined.

Example sample_tuning :
  (try exp := handle_tuning Sample.collaborators (VDict Sample.descriptor) in
   try config := getitem exp "config" in
   Ok (getitem config "lr", getitem config "gamma", getitem config "train_batch_size"))
  = Ok (Ok (VDict {[ "grid_search" := VList [VFloat 1 (-10); VFloat 1 (-13)] ]}),
        Ok (VList [VFloat 1 (-1)]),
        Ok (VInt 4000)).
Proof. vm_compute. reflexivity. Qed.

(** ** C10: the multi-agent setup *)

Section Multiagent.
Variable pm : policy_manager.
Implicit Types (e c ma P : gmap string value) (ids : list string).

(** The loop of lines 114 and 115 on ids that are strings: it fills the
    mapping under [policies] and touches nothing else; an id met twice
    keeps the policy of its last visit, which is the policy of that id. *)
Lemma fill_policies_nest ids : ∀ e c ma P,
  ma !! "policies" = Some (VDict P) →
  (∀ id, id ∈ ids → ∃ p, get_policy pm (VStr id) = Ok p) →
  ∃ P',
    fill_policies pm (VStr <$> ids) (nest e c ma)
    = Ok (nest e c (<["policies" := VDict P']> ma))
    ∧ ∀ id p, P' !! id = Some p ↔
        (id ∈ ids ∧ get_policy pm (VStr id) = Ok p)
        ∨ ((id ∉ ids) ∧ P !! id = Some p).
Proof.
  induction ids as [|id0 ids IH]; intros e c ma P HP Hpm.
  - exists P. split.
    + cbn [fmap list_fmap fill_policies]. by rewrite insert_id.
    + intros id p. split; [intros; right; split; [apply not_elem_of_nil|done]|].
      intros [[Hin%elem_of_nil _]|[_ ?]]; done.
  - destruct (Hpm id0) as [p0 Hp0]; [left|].
    destruct (IH e c (<["policies" := VDict (<[id0 := p0]> P)]> ma) (<[id0 := p0]> P))
      as (P' & Hfill & HP').
    { apply lookup_insert_eq. }
    { intros id Hid. apply Hpm. by right. }
    exists P'. split.
    + rewrite fmap_cons. cbn [fill_policies]. rewrite Hp0. cbn [rbind].
      rewrite getitem3_nest. cbn [getitem]. rewrite HP. cbn [rbind as_key setitem].
      rewrite setitem3_nest. cbn [rbind]. rewrite Hfill.
      by rewrite insert_insert_eq.
    + intros id p. rewrite HP', elem_of_cons.
      destruct (decide (id = id0)) as [->|Hne].
      * rewrite lookup_insert_eq. split.
        -- intros [[_ ?]|[_ [= <-]]]; left; eauto.
        -- intros [[_ ?]|[Hnot _]]; [|by destruct Hnot; left].
           destruct (decide (id0 ∈ ids)); [left; done|right].
           split; [done|]. congruence.
      * rewrite lookup_insert_ne by done. split.
        -- intros [[? ?]|[? ?]]; [left; eauto|right].
           split; [|done]. intros [?|?]; done.
        -- intros [[[?|?] ?]|[Hnot ?]]; [done|left; done|right].
           split; [|done]. intros ?. apply Hnot. by right.
Qed.

End Multiagent.



Example sample_policies :
  (try exp := setup_multiagent Sample.manager (VDict Sample.descriptor) in
   getitem3 exp "config" "multiagent" "policies")
  = Ok (VDict {[ "ego" := VList [VOpaque "policy"; VStr "ego"];
                 "other" := VList [VOpaque "policy"; VStr "other"] ]}).
Proof. vm_compute. reflexivity. Qed.

(** ** C8: the callback cannot be resolved *)

(** C8. When importing the module named on the command line raises, or the
    module has no [update_exp_by_task_id], [main] ends in that error (the
    one the import raised, or the [AttributeError] of line 83), and the
    calls it has made are the load and the one import: no callback, no
    registration, no runtime, no runner, no second import. If lines 61 to
    79 had already failed, [main] ended there, before the import. *)
Theorem unresolved_callback_is_fatal (w : world) (a : args) (err : exn) :
  import_module w (module_name a) = Err err
  ∨ (∃ job_array_mod,
       import_module w (module_name a) = Ok job_array_mod
       ∧ module_dict job_array_mod !! "update_exp_by_task_id" = None
       ∧ err = AttributeError "update_exp_by_task_id") →
  main w a =
    match outcome (get_experiment_configuration w a) with
    | Ok _ => ([EvLoadYaml (config_file a); EvImport (module_name a)], Err err)
    | Err early => ([EvLoadYaml (config_file a)], Err early)
    end.
Proof.
  intros Hmissing. unfold main.
  pose proof (get_experiment_configuration_trace w a) as Htrace.
  destruct (get_experiment_configuration w a) as [t [ev|early]];
    cbn [trace outcome fst snd] in *; subst t; [|done].
  cbn [bind]. unfold prepare, update_by_task_id, call.
  destruct Hmissing as [Himport|(job_array_mod & Himport & Hattr & ->)];
    rewrite Himport; cbn [bind]; [done|].
  unfold getattr. rewrite Hattr. done.
Qed.

Lemma unresolved_callback_is_fatal_witness :
  main Sample.collaborators (Sample.command_line_for (Some "missing"))
  = ([EvLoadYaml (Some "lane_following.yaml"); EvImport "job_array.missing"],
     Err (ModuleNotFoundError "job_array.missing")).
Proof.
  exact (unresolved_callback_is_fatal Sample.collaborators
           (Sample.command_line_for (Some "missing"))
           (ModuleNotFoundError "job_array.missing") (or_introl eq_refl)).
Defined.

Example module_without_callback :
  main Sample.collaborators (Sample.command_line_for (Some "empty"))
  = ([EvLoadYaml (Some "lane_following.yaml"); EvImport "job_array.empty"],
     Err (AttributeError "update_exp_by_task_id")).
Proof. vm_compute. reflexivity. Qed.

Example module_option_not_given :
  main Sample.collaborators (Sample.command_line_for None)
  = ([EvLoadYaml (Some "lane_following.yaml"); EvImport "job_array.None"],
     Err (ModuleNotFoundError "job_array.None")).
Proof. vm_compute. reflexivity. Qed.

(** ** C9: the runner and the shutdown *)

Section Quiet.
Context {A B : Type}.

Lemma quiet_lift (r : result A) : quiet (lift r).
Proof. constructor. Qed.

Lemma quiet_call (ev : event) (r : result A) : launches ev = false → quiet (call ev r).
Proof. intros Hev. by repeat constructor. Qed.

Lemma quiet_bind (m : M A) (k : A → M B) :
  quiet m → (∀ x, quiet (k x)) → quiet (bind m k).
Proof.
  unfold quiet, trace. destruct m as [t [x|err]]; cbn [bind fst]; [|done].
  intros Ht Hk. specialize (Hk x). destruct (k x) as [t' r]. cbn [fst] in *.
  by apply Forall_app.
Qed.

Lemma bind_assoc {C} (m : M A) (k : A → M B) (h : B → M C) :
  bind (bind m k) h = bind m (λ x, bind (k x) h).
Proof.
  destruct m as [t [x|err]]; cbn [bind]; [|done].
  destruct (k x) as [t' [y|err]]; cbn [bind]; [|done].
  destruct (h y) as [t'' r]. by rewrite app_assoc.
Qed.

End Quiet.

Ltac solve_quiet :=
  repeat first
    [ apply quiet_lift
    | apply quiet_call; reflexivity
    | apply quiet_bind; [|intros ?; cbv beta zeta]
    | match goal with
      | |- quiet (if ?b then _ else _) => destruct b
      | |- quiet (match ?x with _ => _ end) => destruct x
      end ].

Lemma prepare_quiet w a exp verbose : quiet (prepare w a exp verbose).
Proof. unfold prepare, update_by_task_id, invoke, say, register, start_ray, set_up_callbacks.
  solve_quiet.
Qed.

Lemma get_experiment_configuration_quiet w a : quiet (get_experiment_configuration w a).
Proof. unfold quiet. rewrite get_experiment_configuration_trace. by repeat constructor. Qed.

Lemma main_assembled w a : main w a = bind (assembled w a) (run_experiment w).
Proof. unfold main, assembled. by rewrite bind_assoc. Qed.

(** C9, as worded, fails: on the sample run the runner returns its analysis
    object and [main] returns [None]. *)
Lemma runner_value_is_dropped :
  ¬ runner_outcome_propagated Sample.collaborators Sample.command_line.
Proof.
  intros Hprop.
  destruct (runner_calls (trace (main Sample.collaborators Sample.command_line)))
    as [|ra calls] eqn:Hcalls; [by vm_compute in Hcalls|].
  assert (EvTuneRun ra ∈ trace (main Sample.collaborators Sample.command_line)) as Hin.
  { assert (ra ∈ runner_calls (trace (main Sample.collaborators Sample.command_line)))
      as Hra by (rewrite Hcalls; left).
    apply list_elem_of_omap in Hra as (ev & Hev & Hsome).
    destruct ev; try discriminate Hsome. injection Hsome as ->. exact Hev. }
  apply Hprop in Hin. vm_compute in Hin. discriminate Hin.
Qed.

(** C9, amended. The calls before the runner (lines 61 to 136) include
    neither the runner nor the shutdown. If they fail, [main] ends there.
    Otherwise the runner is called with the assembled arguments: if it
    raises, [main] ends in that same error and the shutdown is not called;
    if it returns, its value is dropped, the shutdown is the next and last
    call, and [main] returns [None] (or ends in the error of the
    shutdown). *)
Theorem runner_then_shutdown (w : world) (a : args) :
  Forall (λ ev, launches ev = false) (trace (assembled w a))
  ∧ main w a =
      match outcome (assembled w a) with
      | Err err => (trace (assembled w a), Err err)
      | Ok ra =>
          match tune_run w ra with
          | Err err => ((trace (assembled w a) ++ [EvTuneRun ra])%list, Err err)
          | Ok _ =>
              ((trace (assembled w a) ++ [EvTuneRun ra; EvRayShutdown])%list,
               match ray_shutdown w with
               | Ok _ => Ok VNone
               | Err err => Err err
               end)
          end
      end.
Proof.
  split.
  - apply (quiet_bind (get_experiment_configuration w a)).
    + apply get_experiment_configuration_quiet.
    + intros ev. apply prepare_quiet.
  - rewrite main_assembled.
    destruct (assembled w a) as [t [ra|err]]; cbn [bind trace outcome fst snd]; [|done].
    unfold run_experiment, call. destruct (tune_run w ra); cbn [bind]; [|done].
    by destruct (ray_shutdown w).
Qed.

(** ** The sample run, end to end *)

Example sample_run :
  outcome (main Sample.collaborators Sample.command_line) = Ok VNone
  ∧ launches <$> trace (main Sample.collaborators Sample.command_line)
    = [false; false; false; false; false; false; false; false; false; false; true; true]
  ∧ (run_verbose <$> runner_calls (trace (main Sample.collaborators Sample.command_line)))
    = [2%Z]
  ∧ (run_local_dir <$> runner_calls (trace (main Sample.collaborators Sample.command_line)))
    = [VStr "/home/user/ray_results"].
Proof. vm_compute. repeat split. Qed.

(** * Further properties of [main] *)

(** ** Lines 61 to 65: what the file must hold *)

Lemma select_experiment_single (name : string) (exp : value) :
  select_experiment (VDict {[ name := exp ]}) = Ok exp.
Proof.
  unfold select_experiment. rewrite map_to_list_singleton.
  cbn [fmap list_fmap fst length getitem].
  rewrite decide_True by done. by rewrite lookup_singleton_eq.
Qed.

(** X1. Lines 62 to 64 return a descriptor exactly when the loaded mapping
    has a single entry, and then they return the value of that entry: the
    name of the experiment plays no part. *)
Theorem select_experiment_singleton (m : gmap string value) (exp : value) :
  select_experiment (VDict m) = Ok exp ↔ ∃ name, m = {[ name := exp ]}.
Proof.
  unfold select_experiment. split.
  - intros Hsel.
    destruct (decide (length (map_to_list m).*1 = 1)) as [Hlen|]; [|done].
    rewrite length_fmap in Hlen.
    destruct (map_to_list m) as [|[name x] [|? ?]] eqn:Hlist; try done.
    assert (m = {[ name := x ]}) as ->.
    { rewrite <- (list_to_map_to_list m), Hlist. cbn. by rewrite insert_empty. }
    cbn [fmap list_fmap fst getitem] in Hsel.
    rewrite lookup_singleton_eq in Hsel. exists name. congruence.
  - intros [name ->]. apply select_experiment_single.
Qed.

(** X2. When the load raises, or yields something that is not a mapping
    (an empty file yields [None]), or yields one experiment whose body is
    not a mapping, [main] ends in the load's error, in the [AttributeError]
    of line 62 or in the [TypeError] of line 65, and the load is the only
    call it has made. *)
Theorem malformed_file_is_fatal (w : world) (a : args) (err : exn) :
  load_yaml w (config_file a) = Err err
  ∨ (∃ loaded,
       load_yaml w (config_file a) = Ok loaded
       ∧ is_mapping loaded = false
       ∧ err = AttributeError "keys")
  ∨ (∃ name body,
       load_yaml w (config_file a) = Ok (VDict {[ name := body ]})
       ∧ is_mapping body = false
       ∧ err = TypeError) →
  main w a = ([EvLoadYaml (config_file a)], Err err).
Proof.
  unfold main, get_experiment_configuration, call.
  intros [Hload|[(loaded & Hload & Hshape & ->)|(name & body & Hload & Hshape & ->)]];
    rewrite Hload; cbn [bind]; [done|by destruct loaded|].
  rewrite select_experiment_single.
  rewrite bind_lift_ok. by destruct body.
Qed.

Lemma malformed_file_is_fatal_witness :
  main (Sample.collaborators_loading (VDict {[ "lane_following" := VNone ]}))
       Sample.command_line
  = ([EvLoadYaml (Some "lane_following.yaml")], Err TypeError).
Proof.
  apply (malformed_file_is_fatal
           (Sample.collaborators_loading (VDict {[ "lane_following" := VNone ]}))
           Sample.command_line TypeError).
  right. right. exists "lane_following", VNone. repeat split; reflexivity.
Defined.

(** ** Lines 65 to 79: what the first phase changes *)

Section FirstPhase.
Variables (w : world) (a : args).
Implicit Types (e c : gmap string value) (p name : string).

(** Lines 71 to 79 on a descriptor whose config is a mapping. *)
Lemma verbosity_then_local_mode_dict e c :
  e !! "config" = Some (VDict c) →
  verbosity_then_local_mode a (VDict e)
  = Ok (VDict (<["config" := VDict (flagged a c)]> e), verbosity a).
Proof.
  intros Hc. unfold verbosity_then_local_mode, apply_verbosity, apply_local_mode,
    flagged, verbosity.
  destruct (flag_v a), (flag_vv a), (local_mode a); cbn [rbind fst snd];
    repeat (first [ rewrite (setitem2_dict e c) by done
                  | erewrite setitem2_dict by apply lookup_insert_eq ];
            cbn [rbind fst snd]);
    rewrite ?insert_insert_eq; try done.
  by rewrite insert_id.
Qed.

(** Lines 71 to 79 on a descriptor without config. *)
Lemma verbosity_then_local_mode_no_config e :
  e !! "config" = None →
  verbosity_then_local_mode a (VDict e)
  = if flag_v a || flag_vv a || local_mode a
    then Err (KeyError "config")
    else Ok (VDict e, 1%Z).
Proof.
  intros Hc. unfold verbosity_then_local_mode, apply_verbosity, apply_local_mode,
    setitem2.
  destruct (flag_v a), (flag_vv a), (local_mode a);
    cbn [rbind fst snd getitem orb]; rewrite ?Hc; done.
Qed.

(** Lines 61 to 79 up to the flags, when the file holds one experiment
    with a string under [local_dir] and the helpers of [misc] read and
    write the field named by the key. *)
Lemma get_experiment_configuration_flags name e p :
  load_yaml w (config_file a) = Ok (VDict {[ name := VDict e ]}) →
  (∀ d k, get_dict_value_by_str w d k = plain_get d k) →
  (∀ d k x, set_dict_value_by_str w d k x = plain_set d k x) →
  e !! "local_dir" = Some (VStr p) →
  get_experiment_configuration w a
  = ([EvLoadYaml (config_file a)],
     verbosity_then_local_mode a
       (VDict (<["local_dir" := VStr (abspath w (expanduser w p))]>
                 (<["trial_name_creator" := trial_name_creator]> e)))).
Proof.
  intros Hload Hget Hset Hp. unfold get_experiment_configuration, call.
  rewrite Hload. cbn [bind]. rewrite select_experiment_single, bind_lift_ok.
  cbn [setitem]. rewrite bind_lift_ok.
  unfold path_keys. cbn [normalize_paths]. rewrite Hget. unfold plain_get.
  cbn [getitem]. rewrite lookup_insert_ne, Hp by done. cbn [rbind as_path].
  rewrite Hset. unfold plain_set. cbn [setitem rbind]. rewrite bind_lift_ok.
  unfold verbosity_then_local_mode.
  destruct (apply_verbosity a _) as [ev|err]; [|done].
  rewrite bind_lift_ok. cbn [rbind].
  destruct (apply_local_mode a ev.1) as [exp|err]; [|done].
  by rewrite bind_lift_ok.
Qed.

End FirstPhase.

Lemma scalar_shares_nothing (x o : value) :
  is_mapping x = true → is_mapping o = false → is_list o = false → ¬ inside x o.
Proof. intros Hx Ho Hl H. destruct H; [congruence|done|done]. Qed.

(** X3. When the file holds one experiment whose descriptor has a string
    under [local_dir] and a mapping under [config] (and the helpers of
    [misc] read and write the field named by the key), lines 61 to 79
    return with the verbosity of the flags, and in the descriptor they
    return: [trial_name_creator] is the creator, [local_dir] is
    normalized, [config] is a mapping that differs from the loaded one in
    [log_level] and [num_workers] at most, no key is added, and every
    other key whose value shares nothing with the config (the config does
    not occur in it) holds what it held. *)
Theorem first_phase_frame
    (w : world) (a : args) (name p : string) (e c : gmap string value) :
  load_yaml w (config_file a) = Ok (VDict {[ name := VDict e ]}) →
  (∀ d k, get_dict_value_by_str w d k = plain_get d k) →
  (∀ d k x, set_dict_value_by_str w d k x = plain_set d k x) →
  e !! "local_dir" = Some (VStr p) →
  e !! "config" = Some (VDict c) →
  ∃ e' c',
    get_experiment_configuration w a
    = ([EvLoadYaml (config_file a)], Ok (VDict e', verbosity a))
    ∧ e' !! "trial_name_creator" = Some trial_name_creator
    ∧ e' !! "local_dir" = Some (VStr (abspath w (expanduser w p)))
    ∧ e' !! "config" = Some (VDict c')
    ∧ (∀ k x, k ≠ "trial_name_creator" → k ≠ "local_dir" → k ≠ "config" →
         e !! k = Some x → ¬ inside (VDict c) x → e' !! k = Some x)
    ∧ (∀ k, k ≠ "trial_name_creator" → e !! k = None → e' !! k = None)
    ∧ (∀ k, k ≠ "log_level" → k ≠ "num_workers" → c' !! k = c !! k).
Proof.
  intros Hload Hget Hset Hp Hc.
  eexists _, (flagged a c). split.
  - rewrite (get_experiment_configuration_flags w a name e p) by done.
    by rewrite (verbosity_then_local_mode_dict a _ c)
      by (by rewrite !lookup_insert_ne).
  - split; [|split; [|split; [|split; [|split]]]].
    + rewrite !lookup_insert_ne by done. apply lookup_insert_eq.
    + rewrite lookup_insert_ne by done. apply lookup_insert_eq.
    + apply lookup_insert_eq.
    + intros k x ? ? ? Hk _. by rewrite !lookup_insert_ne.
    + intros k ? Hk.
      assert (k ≠ "local_dir") by (intros ->; congruence).
      assert (k ≠ "config") by (intros ->; congruence).
      by rewrite !lookup_insert_ne.
    + intros k ? ?. unfold flagged.
      destruct (flag_v a), (flag_vv a), (local_mode a);
        by rewrite ?lookup_insert_ne.
Qed.

Lemma first_phase_frame_witness :
  ∃ e' c',
    get_experiment_configuration Sample.collaborators Sample.command_line
    = ([EvLoadYaml (config_file Sample.command_line)],
       Ok (VDict e', verbosity Sample.command_line))
    ∧ e' !! "trial_name_creator" = Some trial_name_creator
    ∧ e' !! "local_dir"
      = Some (VStr (abspath Sample.collaborators
                      (expanduser Sample.collaborators "~/ray_results")))
    ∧ e' !! "config" = Some (VDict c')
    ∧ (∀ k x, k ≠ "trial_name_creator" → k ≠ "local_dir" → k ≠ "config" →
         Sample.descriptor !! k = Some x → ¬ inside (VDict Sample.config) x →
         e' !! k = Some x)
    ∧ (∀ k, k ≠ "trial_name_creator" → Sample.descriptor !! k = None → e' !! k = None)
    ∧ (∀ k, k ≠ "log_level" → k ≠ "num_workers" → c' !! k = Sample.config !! k).
Proof.
  apply (first_phase_frame Sample.collaborators Sample.command_line
           "lane_following" "~/ray_results" Sample.descriptor Sample.config);
    reflexivity.
Defined.

(** The run name of the sample shares nothing with the config. *)
Example sample_run_shares_nothing : ¬ inside (VDict Sample.config) (VStr "PPO").
Proof. by apply scalar_shares_nothing. Qed.

(** X4. A descriptor without [config] passes lines 61 to 79 when none of
    [-v], [-vv] and [--local-mode] is given, with verbosity 1; with any of
    the three, the same descriptor makes them end in [KeyError] for
    [config]. *)
Theorem config_needed_only_by_flags
    (w : world) (a : args) (name p : string) (e : gmap string value) :
  load_yaml w (config_file a) = Ok (VDict {[ name := VDict e ]}) →
  (∀ d k, get_dict_value_by_str w d k = plain_get d k) →
  (∀ d k x, set_dict_value_by_str w d k x = plain_set d k x) →
  e !! "local_dir" = Some (VStr p) →
  e !! "config" = None →
  outcome (get_experiment_configuration w a)
  = if flag_v a || flag_vv a || local_mode a
    then Err (KeyError "config")
    else Ok (VDict (<["local_dir" := VStr (abspath w (expanduser w p))]>
                      (<["trial_name_creator" := trial_name_creator]> e)), 1%Z).
Proof.
  intros Hload Hget Hset Hp Hc.
  rewrite (get_experiment_configuration_flags w a name e p) by done.
  cbn [outcome snd]. apply verbosity_then_local_mode_no_config.
  by rewrite !lookup_insert_ne.
Qed.

Lemma config_needed_only_by_flags_witness :
  outcome (get_experiment_configuration
             (Sample.collaborators_loading
                (VDict {[ "lane_following" := VDict (delete "config" Sample.descriptor) ]}))
             Sample.command_line)
  = Err (KeyError "config").
Proof.
  apply (config_needed_only_by_flags
           (Sample.collaborators_loading
              (VDict {[ "lane_following" := VDict (delete "config" Sample.descriptor) ]}))
           Sample.command_line "lane_following" "~/ray_results"
           (delete "config" Sample.descriptor));
    reflexivity.
Defined.

(** X5. The verbosity lines (71 to 77) and the local-mode lines (78 and
    79) can be run in either order: on every descriptor, well formed or
    not, they return the same descriptor and verbosity or raise the same
    error. *)
Theorem verbosity_and_local_mode_commute (a : args) (exp : value) :
  verbosity_then_local_mode a exp = local_mode_then_verbosity a exp.
Proof.
  unfold verbosity_then_local_mode, local_mode_then_verbosity,
    apply_verbosity, apply_local_mode, setitem2.
  destruct exp as [| | | | | |e|]; try by destruct (flag_v a), (flag_vv a), (local_mode a).
  cbn [getitem].
  destruct (e !! "config") as [config|] eqn:Hconfig;
    [|by destruct (flag_v a), (flag_vv a), (local_mode a);
        cbn [rbind fst snd getitem]; rewrite ?Hconfig].
  destruct config as [| | | | | |c|];
    try by destruct (flag_v a), (flag_vv a), (local_mode a);
      cbn [rbind fst snd getitem setitem]; rewrite ?Hconfig.
  destruct (flag_v a), (flag_vv a), (local_mode a);
    repeat progress (cbn [rbind fst snd getitem setitem];
                     rewrite ?Hconfig, ?lookup_insert_eq);
    rewrite ?insert_insert_eq; try done;
    by rewrite (insert_insert_ne _ "num_workers" "log_level") by done.
Qed.

(** ** Lines 82 to 88: the callback *)

Lemma outcome_bind {A B} (m : M A) (k : A → M B) :
  outcome (bind m k) = match outcome m with
                       | Ok x => outcome (k x)
                       | Err err => Err err
                       end.
Proof. destruct m as [t [x|err]]; cbn [bind outcome snd]; [|done]. by destruct (k x). Qed.

Lemma trace_bind {A B} (m : M A) (k : A → M B) :
  trace (bind m k) = match outcome m with
                     | Ok x => (trace m ++ trace (k x))%list
                     | Err err => trace m
                     end.
Proof. destruct m as [t [x|err]]; cbn [bind outcome trace fst snd]; [|done]. by destruct (k x). Qed.

Lemma bind_call_ok {A B} (ev : event) (x : A) (k : A → M B) :
  bind (call ev (Ok x)) k = (ev :: trace (k x), outcome (k x)).
Proof. unfold call. cbn [bind]. by destruct (k x). Qed.

Lemma bind_call_err {A B} (ev : event) (err : exn) (k : A → M B) :
  bind (call ev (Err err)) k = ([ev], Err err).
Proof. reflexivity. Qed.

(** X6. Once lines 61 to 79 have returned a descriptor and the import has
    succeeded: an [update_exp_by_task_id] that is not a function makes
    [main] end in [TypeError] without any further call; one that raises
    when handed that descriptor and the task id of the command line makes
    [main] end in the same error, the callback being its last call:
    nothing is printed, registered or started. *)
Theorem callback_failure_is_fatal
    (w : world) (a : args) (exp : value) (verbose : Z) (job_array_mod : pymodule) :
  outcome (get_experiment_configuration w a) = Ok (exp, verbose) →
  import_module w (module_name a) = Ok job_array_mod →
  (∀ o, module_dict job_array_mod !! "update_exp_by_task_id" = Some (AVal o) →
     main w a
     = ([EvLoadYaml (config_file a); EvImport (module_name a)], Err TypeError))
  ∧ (∀ f err,
       module_dict job_array_mod !! "update_exp_by_task_id" = Some (AFun f) →
       f exp (job_array_task_id a) = Err err →
       main w a
       = ([EvLoadYaml (config_file a); EvImport (module_name a);
           EvUpdateExp exp (job_array_task_id a)], Err err)).
Proof.
  intros Hfirst Himport.
  pose proof (get_experiment_configuration_trace w a) as Htrace.
  unfold main. destruct (get_experiment_configuration w a) as [t [ev|early]];
    cbn [trace outcome fst snd] in *; [|done]. subst t. injection Hfirst as ->.
  cbn [bind fst snd]. unfold prepare, update_by_task_id, call, getattr.
  rewrite Himport. cbn [bind].
  split.
  - intros o Hattr. rewrite Hattr. done.
  - intros f err Hattr Hraise. rewrite Hattr. rewrite bind_lift_ok.
    unfold invoke, call. rewrite Hraise. done.
Qed.

Lemma callback_failure_is_fatal_witness :
  main Sample.collaborators Edge.late_task
  = ([EvLoadYaml (Some "lane_following.yaml"); EvImport "job_array.lr_sweep";
      EvUpdateExp (VDict Edge.prepared) (Some 7%Z)], Err IndexError).
Proof.
  refine (proj2 (callback_failure_is_fatal Sample.collaborators Edge.late_task
                   (VDict Edge.prepared) 1
                   {| module_dict := {[ "update_exp_by_task_id" := AFun Sample.pick_lr ]} |}
                   _ _) Sample.pick_lr IndexError _ _).
  - vm_compute. reflexivity.
  - reflexivity.
  - reflexivity.
  - vm_compute. reflexivity.
Defined.

Example attribute_that_is_no_function :
  main Edge.collaborators (Sample.command_line_for (Some "constants"))
  = ([EvLoadYaml (Some "lane_following.yaml"); EvImport "job_array.constants"],
     Err TypeError).
Proof. vm_compute. reflexivity. Qed.

(** X7. The steps after the callback see the descriptor of lines 61 to 79
    only through what the callback returns: two descriptors on which the
    callback returns the same result lead, for the same command line, to
    the same outcome of lines 82 to 136 and to the same calls after the
    callback. *)
Theorem later_steps_see_callback_result
    (w : world) (a : args) (exp1 exp2 : value) (verbose : Z)
    (job_array_mod : pymodule) (f : value → option Z → result (value * value)) :
  import_module w (module_name a) = Ok job_array_mod →
  module_dict job_array_mod !! "update_exp_by_task_id" = Some (AFun f) →
  f exp1 (job_array_task_id a) = f exp2 (job_array_task_id a) →
  outcome (prepare w a exp1 verbose) = outcome (prepare w a exp2 verbose)
  ∧ ∃ later,
      trace (prepare w a exp1 verbose)
      = EvImport (module_name a) :: EvUpdateExp exp1 (job_array_task_id a) :: later
      ∧ trace (prepare w a exp2 verbose)
        = EvImport (module_name a) :: EvUpdateExp exp2 (job_array_task_id a) :: later.
Proof.
  intros Himport Hattr Hsame.
  unfold prepare, update_by_task_id, getattr.
  rewrite !bind_assoc, Himport, !bind_call_ok. cbn [trace outcome fst snd].
  rewrite !bind_assoc, Hattr, !bind_lift_ok. unfold invoke.
  rewrite !bind_assoc, Hsame.
  destruct (f exp2 (job_array_task_id a)) as [r|err].
  - rewrite !bind_call_ok. cbn [trace outcome fst snd]. eauto.
  - rewrite !bind_call_err. cbn [trace outcome fst snd]. eauto.
Qed.

Lemma later_steps_see_callback_result_witness :
  outcome (prepare Edge.collaborators (Sample.command_line_for (Some "fixed"))
             (VDict Sample.descriptor) 1)
  = outcome (prepare Edge.collaborators (Sample.command_line_for (Some "fixed"))
               VNone 1)
  ∧ ∃ later,
      trace (prepare Edge.collaborators (Sample.command_line_for (Some "fixed"))
               (VDict Sample.descriptor) 1)
      = EvImport "job_array.fixed" :: EvUpdateExp (VDict Sample.descriptor) (Some 1%Z)
          :: later
      ∧ trace (prepare Edge.collaborators (Sample.command_line_for (Some "fixed"))
                 VNone 1)
        = EvImport "job_array.fixed" :: EvUpdateExp VNone (Some 1%Z) :: later.
Proof.
  apply (later_steps_see_callback_result Edge.collaborators
           (Sample.command_line_for (Some "fixed")) (VDict Sample.descriptor) VNone 1
           {| module_dict := {[ "update_exp_by_task_id" := AFun Edge.fixed ]} |}
           Edge.fixed); reflexivity.
Defined.

(** ** Lines 139 to 152: what the runner is handed *)

Lemma rbind_ok {A B} (r : result A) (k : A → result B) (y : B) :
  rbind r k = Ok y → ∃ x, r = Ok x ∧ k x = Ok y.
Proof. destruct r as [x|err]; [eauto|done]. Qed.

Lemma bind_ok {A B} (m : M A) (k : A → M B) (y : B) :
  outcome (bind m k) = Ok y → ∃ x, outcome m = Ok x ∧ outcome (k x) = Ok y.
Proof. rewrite outcome_bind. destruct (outcome m) as [x|err]; [eauto|done]. Qed.

(** Peels the successful steps off a computation that returned. *)
Ltac returned H :=
  repeat match type of H with
  | outcome (bind _ _) = Ok _ =>
      let x := fresh "x" in let Hx := fresh "Hx" in
      apply bind_ok in H as (x & Hx & H); cbv beta zeta in H;
      unfold say in Hx; cbn [outcome lift call snd] in Hx
  | outcome (lift _) = Ok _ => cbn [outcome lift snd] in H
  | rbind _ _ = Ok _ =>
      let x := fresh "x" in let Hx := fresh "Hx" in
      apply rbind_ok in H as (x & Hx & H); cbv beta zeta in H
  end.

Lemma apply_verbosity_snd a exp ev :
  apply_verbosity a exp = Ok ev → ev.2 = verbosity a.
Proof.
  unfold apply_verbosity, verbosity.
  destruct (flag_v a), (flag_vv a); cbn [rbind];
    repeat match goal with
    | |- context [setitem2 ?d ?k1 ?k2 ?x] => destruct (setitem2 d k1 k2 x); cbn [rbind]
    end; by try intros [= <-].
Qed.

Lemma get_experiment_configuration_verbosity w a exp verbose :
  outcome (get_experiment_configuration w a) = Ok (exp, verbose) →
  verbose = verbosity a.
Proof.
  unfold get_experiment_configuration. intros H. returned H.
  injection H as _ <-. by eapply apply_verbosity_snd.
Qed.

Lemma assemble_fields trainer exp_name verbose exp ra :
  assemble trainer exp_name verbose exp = Ok ra →
  run_name ra = exp_name ∧ run_verbose ra = verbose
  ∧ getitem exp "config" = Ok (run_config ra).
Proof.
  unfold assemble. intros H. returned H. by injection H as <-.
Qed.

Lemma update_by_task_id_ok w a exp r :
  outcome (update_by_task_id w a exp) = Ok r →
  ∃ job_array_mod f,
    import_module w (module_name a) = Ok job_array_mod
    ∧ module_dict job_array_mod !! "update_exp_by_task_id" = Some (AFun f)
    ∧ f exp (job_array_task_id a) = Ok r.
Proof.
  unfold update_by_task_id. intros H. returned H.
  injection H as <-. exists x, (match x0 with AFun f => f | AVal _ => λ _ _, Err TypeError end).
  split; [done|]. unfold getattr in Hx0.
  destruct (module_dict x !! "update_exp_by_task_id") as [attr|]; [|done].
  injection Hx0 as ->. by destruct x0.
Qed.

Lemma prepare_ok w a exp verbose ra :
  outcome (prepare w a exp verbose) = Ok ra →
  ∃ r exp3 exp4 trainer,
    outcome (update_by_task_id w a exp) = Ok r
    ∧ convert_to_experiment exp3 = Ok exp4
    ∧ assemble trainer r.2 verbose exp4 = Ok ra.
Proof. unfold prepare. intros H. returned H. eauto 10. Qed.

Lemma convert_to_experiment_ok exp exp' :
  convert_to_experiment exp = Ok exp' →
  ∃ e c env,
    exp = VDict e ∧ e !! "env" = Some env ∧ e !! "config" = Some (VDict c)
    ∧ exp' = VDict (defaulted (delete "env" (<["config" := VDict (<["env" := env]> c)]> e))).
Proof.
  unfold convert_to_experiment. intros H.
  apply rbind_ok in H as (moved & Hmoved & H).
  assert (∃ e c env, exp = VDict e ∧ e !! "env" = Some env
                     ∧ e !! "config" = Some (VDict c)) as (e & c & env & -> & He & Hc).
  { unfold move_env, setitem2 in Hmoved.
    destruct exp as [| | | | | |e|]; try done. cbn [getitem] in Hmoved.
    destruct (e !! "env") as [env|] eqn:He; [|done].
    destruct (e !! "config") as [config|] eqn:Hc; [|done].
    destruct config; try done. eauto 10. }
  rewrite (move_env_dict e c env) in Hmoved by done. injection Hmoved as <-.
  rewrite default_optional_dict in H. injection H as <-. eauto 10.
Qed.

(** X8. Whenever lines 61 to 136 return the arguments of the runner, the
    [verbose] argument is the verbosity of the flags: 3 with [-vv], else 2
    with [-v], else 1; neither the file nor the callback can change it. *)
Theorem runner_verbosity_is_the_flags (w : world) (a : args) (ra : run_args) :
  outcome (assembled w a) = Ok ra →
  run_verbose ra = verbosity a.
Proof.
  unfold assembled. intros H. apply bind_ok in H as ([exp verbose] & Hfirst & H).
  apply prepare_ok in H as (r & exp3 & exp4 & trainer & _ & _ & H).
  apply assemble_fields in H as (_ & -> & _).
  by eapply get_experiment_configuration_verbosity.
Qed.

Lemma runner_verbosity_is_the_flags_witness :
  ∃ ra,
    outcome (assembled Sample.collaborators Sample.command_line) = Ok ra
    ∧ run_verbose ra = verbosity Sample.command_line.
Proof.
  destruct (outcome (assembled Sample.collaborators Sample.command_line))
    as [ra|err] eqn:H.
  - exists ra. split; [reflexivity|].
    exact (runner_verbosity_is_the_flags Sample.collaborators Sample.command_line ra H).
  - vm_compute in H. discriminate H.
Defined.

(** X9. Whenever lines 61 to 136 return the arguments of the runner, the
    experiment name among them is the name the callback returned for the
    descriptor of lines 61 to 79 and the task id of the command line: the
    name the experiment has in the file is not used. *)
Theorem runner_name_is_the_callback_name (w : world) (a : args) (ra : run_args) :
  outcome (assembled w a) = Ok ra →
  ∃ exp verbose job_array_mod f exp',
    outcome (get_experiment_configuration w a) = Ok (exp, verbose)
    ∧ import_module w (module_name a) = Ok job_array_mod
    ∧ module_dict job_array_mod !! "update_exp_by_task_id" = Some (AFun f)
    ∧ f exp (job_array_task_id a) = Ok (exp', run_name ra).
Proof.
  unfold assembled. intros H. apply bind_ok in H as ([exp verbose] & Hfirst & H).
  apply prepare_ok in H as ([exp' name] & exp3 & exp4 & trainer & Hupdate & _ & H).
  apply assemble_fields in H as (Hname & _ & _). cbn [snd] in Hname. subst name.
  apply update_by_task_id_ok in Hupdate as (job_array_mod & f & ? & ? & ?).
  eauto 10.
Qed.

Lemma runner_name_is_the_callback_name_witness :
  ∃ ra,
    outcome (assembled Sample.collaborators Sample.command_line) = Ok ra
    ∧ ∃ exp verbose job_array_mod f exp',
        outcome (get_experiment_configuration Sample.collaborators Sample.command_line)
        = Ok (exp, verbose)
        ∧ import_module Sample.collaborators (module_name Sample.command_line)
          = Ok job_array_mod
        ∧ module_dict job_array_mod !! "update_exp_by_task_id" = Some (AFun f)
        ∧ f exp (job_array_task_id Sample.command_line) = Ok (exp', run_name ra).
Proof.
  destruct (outcome (assembled Sample.collaborators Sample.command_line))
    as [ra|err] eqn:H.
  - exists ra. split; [reflexivity|].
    exact (runner_name_is_the_callback_name Sample.collaborators Sample.command_line ra H).
  - vm_compute in H. discriminate H.
Defined.

(** X10. Whenever lines 61 to 136 return the arguments of the runner, the
    config among them is a mapping with an [env] entry: the runner is
    never called with a config that lacks the environment. *)
Theorem runner_config_has_env (w : world) (a : args) (ra : run_args) :
  outcome (assembled w a) = Ok ra →
  ∃ c env, run_config ra = VDict c ∧ c !! "env" = Some env.
Proof.
  unfold assembled. intros H. apply bind_ok in H as ([exp verbose] & _ & H).
  apply prepare_ok in H as (r & exp3 & exp4 & trainer & _ & Hconvert & H).
  apply assemble_fields in H as (_ & _ & Hconfig).
  apply convert_to_experiment_ok in Hconvert as (e & c & env & -> & _ & _ & ->).
  cbn [getitem] in Hconfig.
  rewrite defaulted_other, lookup_delete_ne, lookup_insert_eq in Hconfig by done.
  injection Hconfig as <-. eexists _, env. split; [done|]. apply lookup_insert_eq.
Qed.

Lemma runner_config_has_env_witness :
  ∃ ra,
    outcome (assembled Sample.collaborators Sample.command_line) = Ok ra
    ∧ ∃ c env, run_config ra = VDict c ∧ c !! "env" = Some env.
Proof.
  destruct (outcome (assembled Sample.collaborators Sample.command_line))
    as [ra|err] eqn:H.
  - exists ra. split; [reflexivity|].
    exact (runner_config_has_env Sample.collaborators Sample.command_line ra H).
  - vm_compute in H. discriminate H.
Defined.

(** ** The order of the calls *)

Local Open Scope list_scope.

Section Order.
Context {A B : Type}.
Implicit Types (l : list call_kind) (m : M A) (k : A → M B).

Lemma within_lift (r : result A) : steps_within [] (lift r).
Proof. unfold steps_within. destruct r; cbn; [done|reflexivity]. Qed.

Lemma within_call (ev : event) (r : result A) : steps_within [kind_of ev] (call ev r).
Proof. unfold steps_within. destruct r; cbn; [done|reflexivity]. Qed.

Lemma within_bind l1 l2 m k :
  steps_within l1 m →
  (∀ x, outcome m = Ok x → steps_within l2 (k x)) →
  steps_within (l1 ++ l2) (bind m k).
Proof.
  unfold steps_within. rewrite outcome_bind, trace_bind.
  destruct (outcome m) as [x|err]; intros Hm Hk.
  - specialize (Hk x eq_refl). rewrite fmap_app, Hm.
    destruct (outcome (k x)); [by rewrite Hk|by apply prefix_app].
  - by apply prefix_app_r.
Qed.

Lemma within_raise l (err : exn) k : steps_within l (bind (lift (Err err)) k).
Proof. unfold steps_within. cbn. apply prefix_nil. Qed.

Lemma within_lift_bind l (r : result A) k :
  (∀ x, steps_within l (k x)) → steps_within l (bind (lift r) k).
Proof. intros Hk. apply (within_bind [] l); [apply within_lift|auto]. Qed.

Lemma within_call_bind l (ev : event) (r : result A) k :
  (∀ x, steps_within l (k x)) → steps_within (kind_of ev :: l) (bind (call ev r) k).
Proof. intros Hk. apply (within_bind [kind_of ev] l); [apply within_call|auto]. Qed.

Lemma within_bind_choice l1 (l2 : bool → list call_kind) m k :
  steps_within l1 m →
  (∀ x, ∃ b, steps_within (l2 b) (k x)) →
  ∃ b, steps_within (l1 ++ l2 b) (bind m k).
Proof.
  intros Hm Hk. destruct (outcome m) as [x|err] eqn:Hout.
  - destruct (Hk x) as [b Hb]. exists b. apply within_bind; [done|].
    intros x' Hx'. rewrite Hout in Hx'. by injection Hx' as <-.
  - exists true. apply within_bind; [done|]. intros x' Hx'. by rewrite Hout in Hx'.
Qed.

End Order.

(** Walks through a computation call by call. *)
Ltac within :=
  repeat first
    [ apply within_lift
    | apply within_call
    | apply within_raise
    | rewrite bind_lift_ok; cbv beta iota zeta
    | apply within_lift_bind; intros ?; cbv beta zeta
    | match goal with
      | |- steps_within _ (bind (call ?ev ?r) ?k) =>
          apply (within_call_bind _ ev r k); intros ?; cbv beta zeta
      | |- steps_within _ (call ?ev ?r) => apply (within_call ev r)
      end
    | match goal with
      | |- steps_within _ (bind (match ?x with _ => _ end) _) => destruct x
      | |- steps_within _ (match ?x with _ => _ end) => destruct x
      end ].

Lemma get_experiment_configuration_within w a :
  steps_within [KLoadYaml] (get_experiment_configuration w a).
Proof. unfold get_experiment_configuration. within. Qed.

Lemma update_by_task_id_within w a exp :
  steps_within [KImport; KUpdateExp; KPrint; KPPrint; KPrint] (update_by_task_id w a exp).
Proof. unfold update_by_task_id, invoke, say. within. Qed.

Lemma register_within w exp : steps_within [KRegisterEnv; KRegisterModel] (register w exp).
Proof. unfold register. within. Qed.

Lemma start_ray_within w a exp : steps_within [KRayInit] (start_ray w a exp).
Proof. unfold start_ray. cbv zeta. within. Qed.

Lemma set_up_callbacks_within w env_creator exp :
  ∃ callbacks : bool,
    steps_within (KPolicyManager :: if callbacks then [KSetCallbacks] else [])
      (set_up_callbacks w env_creator exp).
Proof.
  unfold set_up_callbacks.
  destruct (getitem exp "config") as [config|err] eqn:Hconfig;
    [|exists false; apply within_raise].
  destruct (has_key config "callbacks") as [[]|err] eqn:Hhas;
    [exists true|exists false..];
    rewrite bind_lift_ok;
    (apply (within_call_bind _ (EvPolicyManager env_creator config)); intros pm);
    rewrite bind_lift_ok, Hhas; within.
Qed.

Lemma run_experiment_within w ra : steps_within [KTuneRun; KRayShutdown] (run_experiment w ra).
Proof. unfold run_experiment. within. Qed.

Lemma prepare_within w a exp verbose :
  ∃ callbacks : bool,
    steps_within
      ([KImport; KUpdateExp; KPrint; KPPrint; KPrint; KRegisterEnv; KRegisterModel;
        KRayInit; KPolicyManager] ++ if callbacks then [KSetCallbacks] else [])
      (prepare w a exp verbose).
Proof.
  unfold prepare.
  apply (within_bind_choice [KImport; KUpdateExp; KPrint; KPPrint; KPrint]
           (λ b : bool, [KRegisterEnv; KRegisterModel; KRayInit; KPolicyManager]
                        ++ if b then [KSetCallbacks] else []));
    [apply update_by_task_id_within|]. intros r. cbv zeta.
  apply (within_bind_choice [KRegisterEnv; KRegisterModel]
           (λ b : bool, [KRayInit; KPolicyManager] ++ if b then [KSetCallbacks] else []));
    [apply register_within|]. intros env_creator.
  apply (within_bind_choice [KRayInit]
           (λ b : bool, KPolicyManager :: if b then [KSetCallbacks] else []));
    [apply start_ray_within|]. intros _.
  destruct (set_up_callbacks_within w env_creator r.1) as [callbacks Hcallbacks].
  exists callbacks.
  rewrite <- (app_nil_r (KPolicyManager :: if callbacks then [KSetCallbacks] else [])).
  apply within_bind; [done|]. intros r0 _. cbv zeta. within.
Qed.

(** X11. The calls that the trace records (the load, the import, the
    callback, [print] and [pprint], the two registrations, [ray.init], the
    construction of the policy manager, [set_callbacks], the runner and
    the shutdown) always come in one order: load, import, callback, the
    three prints, the two registrations, [ray.init], the policy manager,
    [set_callbacks] if the config has callbacks, the runner, the shutdown.
    Of these calls a run that raises has made the first few, and a run
    that returns has made all, each once. So nothing is registered before
    the callback has returned, and the runtime is started only after both
    registrations. The look-ups [main] makes in between ([get_policy],
    [get_policy_mapping_fn], [grid_search], [get_trainer_class], the two
    helpers of [misc], [os.path]) are not recorded in the trace, and
    nothing is stated about them. *)
Theorem calls_follow_one_order (w : world) (a : args) :
  ∃ callbacks : bool,
    (kind_of <$> trace (main w a)) `prefix_of` call_order callbacks
    ∧ (∀ x, outcome (main w a) = Ok x →
         kind_of <$> trace (main w a) = call_order callbacks).
Proof.
  assert (∃ callbacks, steps_within (call_order callbacks) (main w a))
    as [callbacks Hsteps].
  { rewrite main_assembled. unfold assembled.
    destruct (within_bind_choice [KLoadYaml]
                (λ b : bool,
                   [KImport; KUpdateExp; KPrint; KPPrint; KPrint; KRegisterEnv;
                    KRegisterModel; KRayInit; KPolicyManager]
                   ++ if b then [KSetCallbacks] else [])
                (get_experiment_configuration w a)
                (λ ev, prepare w a ev.1 ev.2))
      as [callbacks Hassembled].
    - apply get_experiment_configuration_within.
    - intros ev. apply prepare_within.
    - exists callbacks.
      replace (call_order callbacks)
        with (([KLoadYaml]
               ++ [KImport; KUpdateExp; KPrint; KPPrint; KPrint; KRegisterEnv;
                   KRegisterModel; KRayInit; KPolicyManager]
               ++ (if callbacks then [KSetCallbacks] else []))
              ++ [KTuneRun; KRayShutdown])
        by (by destruct callbacks).
      apply within_bind; [done|]. intros ra _. apply run_experiment_within. }
  exists callbacks. unfold steps_within in Hsteps.
  destruct (outcome (main w a)) as [x|err].
  - split; [by rewrite Hsteps|done].
  - split; [done|]. intros x Hx. discriminate Hx.
Qed.

(** ** Lines 112 to 117: when the setup fails *)

Section MultiagentErrors.
Variable pm : policy_manager.
Implicit Types (e c ma P : gmap string value) (pre post : list string).

(** The loop of lines 114 and 115 stops at the first id the manager does
    not resolve. *)
Lemma fill_policies_raise pre : ∀ e c ma P id post err,
  ma !! "policies" = Some (VDict P) →
  (∀ id', id' ∈ pre → ∃ p, get_policy pm (VStr id') = Ok p) →
  get_policy pm (VStr id) = Err err →
  fill_policies pm (VStr <$> (pre ++ id :: post)) (nest e c ma) = Err err.
Proof.
  induction pre as [|id0 pre IH]; intros e c ma P id post err HP Hpre Hid.
  - cbn [app fmap list_fmap fill_policies]. by rewrite Hid.
  - destruct (Hpre id0) as [p0 Hp0]; [left|].
    cbn [app]. rewrite fmap_cons. cbn [fill_policies]. rewrite Hp0. cbn [rbind].
    rewrite getitem3_nest. cbn [getitem]. rewrite HP. cbn [rbind as_key setitem].
    rewrite setitem3_nest. cbn [rbind].
    apply (IH e c _ (<[id0 := p0]> P)); [apply lookup_insert_eq| |done].
    intros id' Hid'. apply Hpre. by right.
Qed.

End MultiagentErrors.

(** X12. When [policies] is a list of ids, the manager resolves the ids
    before some id of the list and raises on that one, the multi-agent
    setup ends in that same error: the error of [get_policy] is not
    caught, and the ids after the failing one are not looked at. *)
Theorem unresolved_policy_is_fatal
    (pm : policy_manager) (e c ma : gmap string value)
    (pre post : list string) (id : string) (err : exn) :
  e !! "config" = Some (VDict c) →
  c !! "multiagent" = Some (VDict ma) →
  ma !! "policies" = Some (VList (VStr <$> (pre ++ id :: post))) →
  (∀ id', id' ∈ pre → ∃ p, get_policy pm (VStr id') = Ok p) →
  get_policy pm (VStr id) = Err err →
  setup_multiagent pm (VDict e) = Err err.
Proof.
  intros He Hc Hheld Hpre Hid.
  rewrite (nest_id e c ma) by done. unfold setup_multiagent.
  rewrite getitem3_nest. cbn [getitem]. rewrite Hheld. cbn [rbind].
  rewrite setitem3_nest. cbn [rbind iterate].
  by rewrite (fill_policies_raise pm pre e c _ ∅ id post err)
    by (done || apply lookup_insert_eq).
Qed.

Lemma unresolved_policy_is_fatal_witness :
  setup_multiagent Strict.manager (VDict Sample.descriptor)
  = Err (Raised "unknown policy").
Proof.
  apply (unresolved_policy_is_fatal Strict.manager Sample.descriptor Sample.config
           Sample.multiagent ["ego"] [] "other").
  - reflexivity.
  - reflexivity.
  - reflexivity.
  - intros id' Hid'. apply list_elem_of_singleton in Hid' as ->. eexists. reflexivity.
  - reflexivity.
Defined.

(** X13. A [multiagent] mapping without [policy_mapping_fn] makes the setup
    end in [KeyError] for that key, and only after every policy id has
    been resolved: line 116 is reached after the loop. *)
Theorem missing_policy_mapping_fn
    (pm : policy_manager) (e c ma : gmap string value) (held : value)
    (ids : list string) :
  e !! "config" = Some (VDict c) →
  c !! "multiagent" = Some (VDict ma) →
  ma !! "policies" = Some held →
  iterate held = Ok (VStr <$> ids) →
  (∀ id, id ∈ ids → ∃ p, get_policy pm (VStr id) = Ok p) →
  ma !! "policy_mapping_fn" = None →
  setup_multiagent pm (VDict e) = Err (KeyError "policy_mapping_fn").
Proof.
  intros He Hc Hheld Hiter Hpm Hfn.
  destruct (fill_policies_nest pm ids e c (<["policies" := VDict ∅]> ma) ∅)
    as (P & Hfill & _); [apply lookup_insert_eq|done|].
  rewrite (nest_id e c ma) by done. unfold setup_multiagent.
  rewrite getitem3_nest. cbn [getitem]. rewrite Hheld. cbn [rbind].
  rewrite setitem3_nest. cbn [rbind]. rewrite Hiter. cbn [rbind].
  rewrite Hfill. cbn [rbind]. rewrite getitem3_nest. cbn [getitem].
  by rewrite !lookup_insert_ne, Hfn by done.
Qed.

Lemma missing_policy_mapping_fn_witness :
  setup_multiagent Sample.manager
    (VDict (<["config" :=
               VDict (<["multiagent" :=
                         VDict (delete "policy_mapping_fn" Sample.multiagent)]>
                        Sample.config)]> Sample.descriptor))
  = Err (KeyError "policy_mapping_fn").
Proof.
  apply (missing_policy_mapping_fn Sample.manager _
           (<["multiagent" := VDict (delete "policy_mapping_fn" Sample.multiagent)]>
              Sample.config)
           (delete "policy_mapping_fn" Sample.multiagent)
           (VList [VStr "ego"; VStr "other"]) ["ego"; "other"]).
  - reflexivity.
  - reflexivity.
  - reflexivity.
  - reflexivity.
  - intros id _. eexists. reflexivity.
  - reflexivity.
Defined.

(** ** Lines 120 to 133: running a step again *)

Lemma defaulted_lookup (e : gmap string value) (k : string) :
  defaulted e !! k
  = if bool_decide (k ∈ ["restore"; "keep_checkpoints_num"; "resources_per_trial"])
    then Some (default VNone (e !! k))
    else e !! k.
Proof.
  unfold defaulted.
  destruct (decide (k = "resources_per_trial")) as [->|?];
    [by rewrite lookup_insert_eq|rewrite lookup_insert_ne by done].
  destruct (decide (k = "keep_checkpoints_num")) as [->|?];
    [by rewrite lookup_insert_eq|rewrite lookup_insert_ne by done].
  destruct (decide (k = "restore")) as [->|?];
    [by rewrite lookup_insert_eq|rewrite lookup_insert_ne by done].
  rewrite bool_decide_eq_false_2; [done|].
  intros Hin. apply list_elem_of_In in Hin. simpl in Hin. intuition congruence.
Qed.

(** X14. On every mapping, lines 129 to 133 return: they add [None] under
    those of [restore], [keep_checkpoints_num] and [resources_per_trial]
    that are missing, leave every entry that is there as it is, and
    running them on their own result changes nothing. *)
Theorem default_optional_only_fills_gaps (e : gmap string value) :
  ∃ e',
    default_optional (VDict e) = Ok (VDict e')
    ∧ default_optional (VDict e') = Ok (VDict e')
    ∧ (∀ k x, e !! k = Some x → e' !! k = Some x)
    ∧ (∀ k, e !! k = None →
         e' !! k
         = if bool_decide (k ∈ ["restore"; "keep_checkpoints_num"; "resources_per_trial"])
           then Some VNone else None).
Proof.
  exists (defaulted e). split; [apply default_optional_dict|]. split; [|split].
  - rewrite default_optional_dict. do 2 f_equal. apply map_eq. intros k.
    rewrite !defaulted_lookup. by case_bool_decide.
  - intros k x Hk. rewrite defaulted_lookup, Hk. by case_bool_decide.
  - intros k Hk. rewrite defaulted_lookup, Hk. by case_bool_decide.
Qed.

(** X15. When a grid-search specification is never itself a list (the
    framework's is a mapping), lines 120 to 124 run on their own result
    change nothing: a hyperparameter is wrapped once. *)
Theorem handle_tuning_wraps_once (w : world) (e c : gmap string value) :
  (∀ x, is_list (grid_search w x) = false) →
  e !! "config" = Some (VDict c) →
  ∃ exp',
    handle_tuning w (VDict e) = Ok exp'
    ∧ handle_tuning w exp' = Ok exp'.
Proof.
  intros Hspec Hc. eexists. unfold handle_tuning at 1.
  rewrite (getitem_dict e "config" (VDict c)) by done. cbn [rbind setitem].
  split; [done|].
  unfold handle_tuning. cbn [getitem]. rewrite lookup_insert_eq. cbn [rbind setitem].
  rewrite insert_insert_eq. do 4 f_equal. apply map_eq. intros k.
  rewrite !tuning_lookup. destruct (c !! k) as [x|]; [|done]. cbn. f_equal.
  unfold tuned. destruct (bool_decide (k ∈ tune_keys) && is_list x) eqn:Hx.
  - by rewrite Hspec, andb_false_r.
  - by rewrite Hx.
Qed.

Lemma handle_tuning_wraps_once_witness :
  ∃ exp',
    handle_tuning Sample.collaborators (VDict Sample.descriptor) = Ok exp'
    ∧ handle_tuning Sample.collaborators exp' = Ok exp'.
Proof.
  apply (handle_tuning_wraps_once Sample.collaborators Sample.descriptor Sample.config).
  - intros x. reflexivity.
  - reflexivity.
Defined.

(** ** Lines 97 to 103: how the runtime is started *)

Lemma within_elem {A} (l : list call_kind) (m : M A) (ev : event) :
  steps_within l m → ev ∈ trace m → kind_of ev ∈ l.
Proof.
  unfold steps_within. intros Hm Hev.
  assert (kind_of ev ∈ kind_of <$> trace m) as Hkind by (by apply list_elem_of_fmap_2).
  destruct (outcome m); [by rewrite <- Hm|].
  destruct Hm as [rest ->]. apply elem_of_app. by left.
Qed.

Lemma elem_of_trace_bind {A B} (ev : event) (m : M A) (k : A → M B) :
  ev ∈ trace (bind m k) →
  ev ∈ trace m ∨ ∃ x, outcome m = Ok x ∧ ev ∈ trace (k x).
Proof.
  rewrite trace_bind. destruct (outcome m) as [x|err]; [|by left].
  intros [?|?]%elem_of_app; [by left|right; eauto].
Qed.

(** Closes a case where a call of the wrong kind would have been made. *)
Ltac wrong_kind H lemma :=
  apply (within_elem _ _ _ lemma) in H;
  apply list_elem_of_In in H; simpl in H; intuition discriminate.

Lemma start_ray_trace w a exp ev :
  ev ∈ trace (start_ray w a exp) →
  ∃ cpus gpus,
    ev = EvRayInit {| init_local_mode := local_mode a;
                      init_temp_dir := abspath w (expanduser w (temp_dir a));
                      include_dashboard := false;
                      num_cpus := cpus; num_gpus := gpus |}.
Proof.
  unfold start_ray. cbv zeta.
  destruct (getitem2 exp "ray_resources" "num_cpus") as [cpus|];
    [|by intros ?%elem_of_nil].
  rewrite bind_lift_ok.
  destruct (getitem2 exp "ray_resources" "num_gpus") as [gpus|];
    [|by intros ?%elem_of_nil].
  rewrite bind_lift_ok. unfold call. cbn [trace fst].
  intros ->%list_elem_of_singleton. eauto.
Qed.

(** X16. Every call of [ray.init] that [main] makes has these arguments:
    [local_mode] as on the command line, [_temp_dir] the temporary
    directory of the command line after tilde expansion and conversion to
    an absolute path, and the dashboard switched off. *)
Theorem ray_init_arguments (w : world) (a : args) (ia : init_args) :
  EvRayInit ia ∈ trace (main w a) →
  init_local_mode ia = local_mode a
  ∧ init_temp_dir ia = abspath w (expanduser w (temp_dir a))
  ∧ include_dashboard ia = false.
Proof.
  unfold main. intros Hin.
  apply elem_of_trace_bind in Hin as [Hin|(ev & _ & Hin)];
    [wrong_kind Hin (get_experiment_configuration_within w a)|].
  apply elem_of_trace_bind in Hin as [Hin|(ra & _ & Hin)];
    [|wrong_kind Hin (run_experiment_within w ra)].
  unfold prepare in Hin.
  apply elem_of_trace_bind in Hin as [Hin|(r & _ & Hin)];
    [wrong_kind Hin (update_by_task_id_within w a ev.1)|]. cbv zeta in Hin.
  apply elem_of_trace_bind in Hin as [Hin|(env_creator & _ & Hin)];
    [wrong_kind Hin (register_within w r.1)|].
  apply elem_of_trace_bind in Hin as [Hin|(? & _ & Hin)].
  { apply start_ray_trace in Hin as (cpus & gpus & [= ->]). done. }
  apply elem_of_trace_bind in Hin as [Hin|(r0 & _ & Hin)].
  { destruct (set_up_callbacks_within w env_creator r.1) as [[] Hcallbacks];
      wrong_kind Hin Hcallbacks. }
  cbv zeta in Hin.
  assert (steps_within []
            (do exp <- lift (setup_multiagent r0.1 r0.2);
             do exp0 <- lift (handle_tuning w exp);
             do exp3 <- lift (convert_to_experiment exp0);
             do run <- lift (getitem exp3 "run");
             do trainer <- lift (get_trainer_class w run);
             lift (assemble trainer r.2 ev.2 exp3))) as Hrest by within.
  wrong_kind Hin Hrest.
Qed.

Lemma ray_init_arguments_witness :
  ∃ ia,
    EvRayInit ia ∈ trace (main Sample.collaborators Sample.command_line)
    ∧ init_local_mode ia = local_mode Sample.command_line
    ∧ init_temp_dir ia
      = abspath Sample.collaborators
          (expanduser Sample.collaborators (temp_dir Sample.command_line))
    ∧ include_dashboard ia = false.
Proof.
  exists {| init_local_mode := true; init_temp_dir := "/home/user/tmp";
            include_dashboard := false; num_cpus := VInt 8; num_gpus := VInt 1 |}.
  assert (EvRayInit {| init_local_mode := true; init_temp_dir := "/home/user/tmp";
                       include_dashboard := false; num_cpus := VInt 8;
                       num_gpus := VInt 1 |}
          ∈ trace (main Sample.collaborators Sample.command_line)) as Hin.
  { apply (list_elem_of_lookup_2 _ 8). vm_compute. reflexivity. }
  split; [exact Hin|].
  exact (ray_init_arguments Sample.collaborators Sample.command_line _ Hin).
Defined.

(** ** Lines 158 to 161: the trial name *)

Local Open Scope string_scope.

Lemma rstrip_spaces (ws : string) :
  forallb is_space (String.list_ascii_of_string ws) = true → rstrip ws = "".
Proof.
  induction ws as [|c ws IH]; [done|]. cbn [String.list_ascii_of_string forallb rstrip].
  intros [Hc Hws]%andb_prop. by rewrite IH, Hc.
Qed.

Lemma lstrip_spaces (ws : string) :
  forallb is_space (String.list_ascii_of_string ws) = true → lstrip ws = "".
Proof.
  induction ws as [|c ws IH]; [done|]. cbn [String.list_ascii_of_string forallb lstrip].
  intros [Hc Hws]%andb_prop. by rewrite Hc, IH.
Qed.

Lemma append_cons (c : ascii) (s t : string) : String c s ++ t = String c (s ++ t).
Proof. reflexivity. Qed.

Lemma append_nil (t : string) : "" ++ t = t.
Proof. reflexivity. Qed.

Lemma rstrip_keeps (h ws : string) :
  forallb (λ c, negb (is_space c)) (String.list_ascii_of_string h) = true →
  forallb is_space (String.list_ascii_of_string ws) = true →
  rstrip (h ++ ws) = h.
Proof.
  intros Hh Hws. induction h as [|c h IH]; [by apply rstrip_spaces|].
  cbn [String.list_ascii_of_string forallb] in Hh.
  apply andb_prop in Hh as [Hc Hh]. apply negb_true_iff in Hc.
  rewrite append_cons. cbn [rstrip]. rewrite IH by done. rewrite Hc. by destruct h.
Qed.

Lemma strip_keeps (h ws : string) :
  forallb (λ c, negb (is_space c)) (String.list_ascii_of_string h) = true →
  forallb is_space (String.list_ascii_of_string ws) = true →
  strip (h ++ ws) = h.
Proof.
  intros Hh Hws. unfold strip. destruct h as [|c h].
  - rewrite append_nil. by rewrite lstrip_spaces.
  - assert (is_space c = false) as Hc.
    { cbn [String.list_ascii_of_string forallb] in Hh.
      apply andb_prop in Hh as [Hc _]. by apply negb_true_iff in Hc. }
    rewrite append_cons. cbn [lstrip]. rewrite Hc. rewrite <- append_cons.
    by apply (rstrip_keeps (String c h) ws).
Qed.

Lemma length_append (s t : string) :
  String.length (s ++ t) = (String.length s + String.length t)%nat.
Proof.
  induction s as [|c s IH]; [done|].
  rewrite append_cons. cbn [String.length]. by rewrite IH.
Qed.

Lemma append_inv_tail (s1 s2 t : string) : s1 ++ t = s2 ++ t → s1 = s2.
Proof.
  revert s2. induction s1 as [|c1 s1 IH]; intros [|c2 s2] H;
    rewrite ?append_cons, ?append_nil in H.
  - done.
  - apply (f_equal String.length) in H. cbn [String.length] in H.
    rewrite length_append in H. lia.
  - apply (f_equal String.length) in H. cbn [String.length] in H.
    rewrite length_append in H. lia.
  - injection H as -> H. f_equal. by apply IH.
Qed.

(** X17. When git prints a hash without white space followed by white
    space (the line feed that ends its output), and the hash decodes, the
    trial name is [str(trial)], an underscore and the hash: the line feed
    does not get into the name. *)
Theorem trial_name_drops_the_line_feed
    (sh : shell) (trial h ws decoded : string) :
  check_output sh ["git"; "rev-parse"; "--short"; "HEAD"] = Ok (h ++ ws) →
  forallb (λ c, negb (is_space c)) (String.list_ascii_of_string h) = true →
  forallb is_space (String.list_ascii_of_string ws) = true →
  decode_utf8 sh h = Ok decoded →
  trial_name sh trial = Ok (trial ++ "_" ++ decoded).
Proof.
  intros Hout Hh Hws Hdecode. unfold trial_name. rewrite Hout. cbn [rbind].
  rewrite strip_keeps by done. by rewrite Hdecode.
Qed.

Lemma trial_name_drops_the_line_feed_witness :
  trial_name Git.repository "PPO_LaneFollowing_00000" = Ok "PPO_LaneFollowing_00000_3f2a91c".
Proof.
  apply (trial_name_drops_the_line_feed Git.repository "PPO_LaneFollowing_00000"
           "3f2a91c" (String (ascii_of_nat 10) EmptyString) "3f2a91c");
    reflexivity.
Defined.

(** X18. Under one commit, trials whose [str] differ get different names:
    the name determines the trial. *)
Theorem trial_names_are_distinct (sh : shell) (trial1 trial2 name1 name2 : string) :
  trial_name sh trial1 = Ok name1 →
  trial_name sh trial2 = Ok name2 →
  trial1 ≠ trial2 →
  name1 ≠ name2.
Proof.
  unfold trial_name. intros H1 H2 Hdiff Hsame. apply Hdiff.
  destruct (check_output sh _) as [output|]; [|done]. cbn [rbind] in *.
  destruct (decode_utf8 sh (strip output)) as [githash|]; [|done]. cbn [rbind] in *.
  injection H1 as <-. injection H2 as <-. by eapply append_inv_tail.
Qed.

Lemma trial_names_are_distinct_witness :
  "PPO_LaneFollowing_00000_3f2a91c" ≠ "PPO_LaneFollowing_00001_3f2a91c".
Proof.
  apply (trial_names_are_distinct Git.repository "PPO_LaneFollowing_00000"
           "PPO_LaneFollowing_00001"); [reflexivity|reflexivity|discriminate].
Defined.

(** ** Lines 93 to 142: the environment, from registration to runner *)

Lemma setitem_frame d k1 x d' k :
  setitem d k1 x = Ok d' → k ≠ k1 → getitem d' k = getitem d k.
Proof.
  destruct d; try done. cbn [setitem]. intros [= <-] Hk. cbn [getitem].
  by rewrite lookup_insert_ne.
Qed.

Lemma setitem3_frame d k1 k2 k3 x d' k :
  setitem3 d k1 k2 k3 x = Ok d' → k ≠ k1 → getitem d' k = getitem d k.
Proof.
  unfold setitem3. intros H Hk. returned H. by eapply setitem_frame.
Qed.

Lemma fill_policies_frame pm ids : ∀ exp exp' k,
  fill_policies pm ids exp = Ok exp' → k ≠ "config" → getitem exp' k = getitem exp k.
Proof.
  induction ids as [|p_id ids IH]; intros exp exp' k H Hk; cbn [fill_policies] in H.
  - by injection H as <-.
  - returned H. rewrite (IH _ _ _ H Hk). by eapply setitem3_frame.
Qed.

Lemma setup_multiagent_frame pm exp exp' k :
  setup_multiagent pm exp = Ok exp' → k ≠ "config" → getitem exp' k = getitem exp k.
Proof.
  unfold setup_multiagent. intros H Hk. returned H.
  rewrite (setitem3_frame _ _ _ _ _ _ _ H Hk).
  rewrite (fill_policies_frame _ _ _ _ _ Hx2 Hk).
  by eapply setitem3_frame.
Qed.

Lemma handle_tuning_frame w exp exp' k :
  handle_tuning w exp = Ok exp' → k ≠ "config" → getitem exp' k = getitem exp k.
Proof.
  unfold handle_tuning. intros H Hk. returned H.
  destruct x; try done. by eapply setitem_frame.
Qed.

Lemma register_ok w exp env_creator :
  outcome (register w exp) = Ok env_creator →
  ∃ env, getitem exp "env" = Ok env ∧ EvRegisterEnv env ∈ trace (register w exp).
Proof.
  unfold register. intros H.
  destruct (getitem exp "env") as [env|]; [|done]. exists env. split; [done|].
  rewrite bind_lift_ok. rewrite trace_bind. cbn [outcome call snd trace fst].
  destruct (register_custom_env w env); [apply elem_of_app|]; by repeat left.
Qed.

Lemma set_up_callbacks_ok w env_creator exp r :
  outcome (set_up_callbacks w env_creator exp) = Ok r →
  r.2 = exp ∨ ∃ ids, set_callbacks w exp ids = Ok r.2.
Proof.
  unfold set_up_callbacks. intros H. returned H.
  destruct x2.
  - returned H. injection H as <-. right. eauto.
  - returned H. injection H as <-. by left.
Qed.

(** X19. Provided [set_callbacks] leaves the descriptor's [env] alone:
    whenever lines 61 to 136 return the arguments of the runner, the
    environment that line 93 registered is the one the runner finds under
    [env] in its config. *)
Theorem registered_env_reaches_runner (w : world) (a : args) (ra : run_args) :
  (∀ exp ids exp',
     set_callbacks w exp ids = Ok exp' → getitem exp' "env" = getitem exp "env") →
  outcome (assembled w a) = Ok ra →
  ∃ env,
    EvRegisterEnv env ∈ trace (assembled w a)
    ∧ getitem (run_config ra) "env" = Ok env.
Proof.
  intros Hcallbacks H. unfold assembled in *.
  rewrite trace_bind. apply bind_ok in H as (ev & -> & H).
  unfold prepare in *.
  rewrite trace_bind. apply bind_ok in H as (r & -> & H). cbv zeta in *.
  rewrite trace_bind. apply bind_ok in H as (env_creator & Hregister & H).
  rewrite Hregister.
  apply register_ok in Hregister as (env & Henv & Hin).
  exists env. split; [rewrite !elem_of_app; auto|].
  returned H.
  apply assemble_fields in H as (_ & _ & Hconfig).
  apply convert_to_experiment_ok in Hx3 as (e & c & env' & -> & He & _ & ->).
  cbn [getitem] in Hconfig.
  rewrite defaulted_other, lookup_delete_ne, lookup_insert_eq in Hconfig by done.
  injection Hconfig as <-. cbn [getitem]. rewrite lookup_insert_eq. f_equal.
  assert (getitem (VDict e) "env" = Ok env) as Hchain.
  { rewrite (handle_tuning_frame _ _ _ _ Hx2) by done.
    rewrite (setup_multiagent_frame _ _ _ _ Hx1) by done.
    apply set_up_callbacks_ok in Hx0 as [->|[ids Hids]]; [done|].
    by rewrite (Hcallbacks _ _ _ Hids). }
  cbn [getitem] in Hchain. rewrite He in Hchain. congruence.
Qed.

Lemma registered_env_reaches_runner_witness :
  ∃ ra,
    outcome (assembled Sample.collaborators Sample.command_line) = Ok ra
    ∧ ∃ env,
        EvRegisterEnv env ∈ trace (assembled Sample.collaborators Sample.command_line)
        ∧ getitem (run_config ra) "env" = Ok env.
Proof.
  destruct (outcome (assembled Sample.collaborators Sample.command_line))
    as [ra|err] eqn:H.
  - exists ra. split; [reflexivity|].
    apply (registered_env_reaches_runner Sample.collaborators Sample.command_line ra).
    + intros exp ids exp' [= <-]. reflexivity.
    + exact H.
  - vm_compute in H. discriminate H.
Defined.

(** X20. On a descriptor with [env] and a config that is a mapping, lines
    127 to 133 leave inside the config every key other than [env] as it
    was, and in the descriptor every key other than [env], [config],
    [restore], [keep_checkpoints_num] and [resources_per_trial] whose
    value shares nothing with the config (the config does not occur in
    it); they add no key but the three optional ones. *)
Theorem conversion_frame (e c : gmap string value) (env : value) :
  e !! "env" = Some env →
  e !! "config" = Some (VDict c) →
  ∃ e' c',
    convert_to_experiment (VDict e) = Ok (VDict e')
    ∧ e' !! "config" = Some (VDict c')
    ∧ (∀ k x, k ∉ ["env"; "config"; "restore"; "keep_checkpoints_num";
                   "resources_per_trial"] →
         e !! k = Some x → ¬ inside (VDict c) x → e' !! k = Some x)
    ∧ (∀ k, k ∉ ["restore"; "keep_checkpoints_num"; "resources_per_trial"] →
         e !! k = None → e' !! k = None)
    ∧ (∀ k, k ≠ "env" → c' !! k = c !! k).
Proof.
  intros He Hc. eexists _, (<["env" := env]> c).
  unfold convert_to_experiment. rewrite (move_env_dict e c env) by done. cbn [rbind].
  split; [apply default_optional_dict|]. split; [|split; [|split]].
  - rewrite defaulted_other, lookup_delete_ne by done. apply lookup_insert_eq.
  - intros k x Hk Hx _.
    assert (k ≠ "env" ∧ k ≠ "config" ∧ k ≠ "restore" ∧ k ≠ "keep_checkpoints_num"
            ∧ k ≠ "resources_per_trial") as (? & ? & ? & ? & ?).
    { repeat split; intros ->; apply Hk; in_list. }
    by rewrite defaulted_other, lookup_delete_ne, lookup_insert_ne.
  - intros k Hk Hnone.
    assert (k ≠ "restore" ∧ k ≠ "keep_checkpoints_num" ∧ k ≠ "resources_per_trial")
      as (? & ? & ?).
    { repeat split; intros ->; apply Hk; in_list. }
    assert (k ≠ "config") by (intros ->; congruence).
    rewrite defaulted_other by done.
    destruct (decide (k = "env")) as [->|?]; [apply lookup_delete_eq|].
    by rewrite lookup_delete_ne, lookup_insert_ne.
  - intros k Hk. by rewrite lookup_insert_ne.
Qed.

Lemma conversion_frame_witness :
  ∃ e' c',
    convert_to_experiment (VDict Sample.descriptor) = Ok (VDict e')
    ∧ e' !! "config" = Some (VDict c')
    ∧ (∀ k x, k ∉ ["env"; "config"; "restore"; "keep_checkpoints_num";
                   "resources_per_trial"] →
         Sample.descriptor !! k = Some x → ¬ inside (VDict Sample.config) x →
         e' !! k = Some x)
    ∧ (∀ k, k ∉ ["restore"; "keep_checkpoints_num"; "resources_per_trial"] →
         Sample.descriptor !! k = None → e' !! k = None)
    ∧ (∀ k, k ≠ "env" → c' !! k = Sample.config !! k).
Proof.
  apply (conversion_frame Sample.descriptor Sample.config (VStr "LaneFollowing"));
    reflexivity.
Defined.
